(** * Match Masters Analysis dashboard (main.py)

    A shallow embedding of [main.py]: the two warehouse statements it sends,
    the reshaping of their results and the Streamlit elements it emits.

    - Python values are kept as the script has them: [str] as [string],
      integers as [Z], [None] as [None] of an option type, [datetime.date]
      as a record of year, month and day.
    - A Python call either returns or raises; [outcome] has a third case,
      [Unmodelled], for the inputs on which the behaviour of a library is
      deliberately left out of this development (each use says which).
    - The script talks to the page through [st.*] calls; [script] is the
      writer-and-exception monad that records them in order. *)

From Stdlib Require Import ZArith QArith List String Ascii Bool Lia.
From Stdlib Require Import Sorted Permutation.
Import ListNotations.

Local Open Scope string_scope.
Local Open Scope list_scope.

(* ------------------------------------------------------------------ *)
(** * Python strings *)

Module Str.

Definition is_upper (c : ascii) : bool :=
  (65 <=? nat_of_ascii c)%nat && (nat_of_ascii c <=? 90)%nat.

Definition is_lower (c : ascii) : bool :=
  (97 <=? nat_of_ascii c)%nat && (nat_of_ascii c <=? 122)%nat.

Definition lower_char (c : ascii) : ascii :=
  if is_upper c then ascii_of_nat (nat_of_ascii c + 32) else c.

Definition upper_char (c : ascii) : ascii :=
  if is_lower c then ascii_of_nat (nat_of_ascii c - 32) else c.

(** [s.lower()] on the ASCII letters; other bytes are kept. *)
Fixpoint lower (s : string) : string :=
  match s with
  | EmptyString => EmptyString
  | String c s' => String (lower_char c) (lower s')
  end.

(** [s.replace(a, b)] for one-character [a] and [b]. *)
Fixpoint replace (a b : ascii) (s : string) : string :=
  match s with
  | EmptyString => EmptyString
  | String c s' => String (if Ascii.eqb c a then b else c) (replace a b s')
  end.

(** [s.title()]: a letter that follows a letter is lowered, any other
    letter is raised. [cased] tells whether the previous character was a
    letter. *)
Fixpoint title_from (cased : bool) (s : string) : string :=
  match s with
  | EmptyString => EmptyString
  | String c s' =>
      let letter := is_upper c || is_lower c in
      String (if letter then (if cased then lower_char c else upper_char c) else c)
             (title_from letter s')
  end.

Definition title (s : string) : string := title_from false s.

(** [s.startswith(p)] *)
Fixpoint startswith (p s : string) : bool :=
  match p, s with
  | EmptyString, _ => true
  | String a p', String b s' => Ascii.eqb a b && startswith p' s'
  | String _ _, EmptyString => false
  end.

(** [p in s] *)
Fixpoint contains (p s : string) : bool :=
  startswith p s ||
  match s with
  | EmptyString => false
  | String _ s' => contains p s'
  end.

(** Truth value of a string in a condition: non-empty. *)
Definition truthy (s : string) : bool :=
  match s with EmptyString => false | String _ _ => true end.

Definition mem (s : string) (l : list string) : bool :=
  existsb (String.eqb s) l.

End Str.

(* ------------------------------------------------------------------ *)
(** * Outcomes of calls and the script monad *)

(** The exceptions that occur in the script. The text is what [str(e)]
    gives; the texts of library messages are representative, no statement
    depends on their wording. *)
Inductive exn : Type :=
| DatabaseError (msg : string)         (* raised by [pd.read_sql] *)
| JSONDecodeError (msg : string)       (* raised by [json.loads] *)
| AttributeError (msg : string)
| KeyError (msg : string)
| OutOfBoundsDatetime (msg : string)   (* raised by [pd.to_datetime] *)
| ConnectError (msg : string).         (* raised while building the engine *)

Definition str_exn (e : exn) : string :=
  match e with
  | DatabaseError m | JSONDecodeError m | AttributeError m | KeyError m
  | OutOfBoundsDatetime m | ConnectError m => m
  end.

Inductive outcome (A : Type) : Type :=
| Returns (a : A)
| Raises (e : exn)
| Unmodelled.

Arguments Returns {A} a.
Arguments Raises {A} e.
Arguments Unmodelled {A}.

Definition obind {A B} (o : outcome A) (k : A -> outcome B) : outcome B :=
  match o with
  | Returns a => k a
  | Raises e => Raises e
  | Unmodelled => Unmodelled
  end.

(** [[f(x) for x in l]], stopping at the first call that raises. *)
Fixpoint omap {A B} (f : A -> outcome B) (l : list A) : outcome (list B) :=
  match l with
  | [] => Returns []
  | x :: l' => obind (f x) (fun y => obind (omap f l') (fun ys => Returns (y :: ys)))
  end.

(* ------------------------------------------------------------------ *)
(** * Dictionaries and JSON documents *)

(** A Python [dict] with string keys: the keys in insertion order, each
    once. *)
Definition dict (V : Type) : Type := list (string * V).

Fixpoint dict_get {V} (k : string) (d : dict V) : option V :=
  match d with
  | [] => None
  | (k', v) :: d' => if String.eqb k k' then Some v else dict_get k d'
  end.

(** [d[k] = v]: an existing key keeps its place, a new key goes last. *)
Fixpoint dict_set {V} (k : string) (v : V) (d : dict V) : dict V :=
  match d with
  | [] => [(k, v)]
  | (k', v') :: d' =>
      if String.eqb k k' then (k', v) :: d' else (k', v') :: dict_set k v d'
  end.

(** [dict(pairs)] *)
Definition dict_of_pairs {V} (pairs : list (string * V)) : dict V :=
  fold_left (fun d kv => dict_set (fst kv) (snd kv) d) pairs [].

Definition keys {V} (d : dict V) : list string := map fst d.

(** What [json.loads] returns. A number keeps its lexeme: its value as an
    [int] or a [float] is not needed below. [JNull] is Python's [None],
    [JString] a [str], [JObject] a [dict]. *)
#[local] Unset Elimination Schemes.
Inductive json : Type :=
| JNull
| JBool (b : bool)
| JNumber (lexeme : string)
| JString (s : string)
| JArray (items : list json)
| JObject (members : dict json).
#[local] Set Elimination Schemes.

Module Json.

Definition dquote : ascii := ascii_of_nat 34.
Definition backslash : ascii := ascii_of_nat 92.

Definition is_ws (c : ascii) : bool :=
  let n := nat_of_ascii c in
  (n =? 32)%nat || (n =? 9)%nat || (n =? 10)%nat || (n =? 13)%nat.

Definition is_digit (c : ascii) : bool :=
  (48 <=? nat_of_ascii c)%nat && (nat_of_ascii c <=? 57)%nat.

Fixpoint skip_ws (s : string) : string :=
  match s with
  | String c s' => if is_ws c then skip_ws s' else s
  | EmptyString => s
  end.

Definition hex_digit (c : ascii) : option N :=
  let n := N_of_ascii c in
  if (48 <=? n)%N && (n <=? 57)%N then Some (n - 48)%N
  else if (65 <=? n)%N && (n <=? 70)%N then Some (n - 55)%N
  else if (97 <=? n)%N && (n <=? 102)%N then Some (n - 87)%N
  else None.

Definition hex4 (a b c d : ascii) : option N :=
  match hex_digit a, hex_digit b, hex_digit c, hex_digit d with
  | Some x, Some y, Some z, Some t => Some (((x * 16 + y) * 16 + z) * 16 + t)%N
  | _, _, _, _ => None
  end.

(** The UTF-8 bytes of a code point, put in front of [rest]. *)
Definition utf8 (n : N) (rest : string) : string :=
  let byte (k : N) := ascii_of_N k in
  let cont (k : N) := byte (128 + k mod 64)%N in
  if (n <? 128)%N then String (byte n) rest
  else if (n <? 2048)%N then String (byte (192 + n / 64)%N) (String (cont n) rest)
  else if (n <? 65536)%N then
    String (byte (224 + n / 4096)%N) (String (cont (n / 64)%N) (String (cont n) rest))
  else
    String (byte (240 + n / 262144)%N)
      (String (cont (n / 4096)%N) (String (cont (n / 64)%N) (String (cont n) rest))).

Definition unescape (c : ascii) : option ascii :=
  if Ascii.eqb c dquote then Some dquote
  else if Ascii.eqb c backslash then Some backslash
  else if Ascii.eqb c "/" then Some "/"%char
  else if Ascii.eqb c "b" then Some (ascii_of_nat 8)
  else if Ascii.eqb c "f" then Some (ascii_of_nat 12)
  else if Ascii.eqb c "n" then Some (ascii_of_nat 10)
  else if Ascii.eqb c "r" then Some (ascii_of_nat 13)
  else if Ascii.eqb c "t" then Some (ascii_of_nat 9)
  else None.

Definition is_high (n : N) : bool := (55296 <=? n)%N && (n <=? 56319)%N.
Definition is_low (n : N) : bool := (56320 <=? n)%N && (n <=? 57343)%N.

(** The low half of a surrogate pair at the head of [s], with what
    follows it. *)
Definition low_surrogate (s : string) : option (N * string) :=
  match s with
  | String b (String u (String h1 (String h2 (String h3 (String h4 r))))) =>
      if Ascii.eqb b backslash && Ascii.eqb u "u" then
        match hex4 h1 h2 h3 h4 with
        | Some n => if is_low n then Some (n, r) else None
        | None => None
        end
      else None
  | _ => None
  end.

(** [scanstring], from just after the opening quote: the decoded string
    and the text after the closing quote. Control characters are refused
    (strict mode). *)
Fixpoint scanstring (s : string) : option (string * string) :=
  let cons (f : string -> string) (r : option (string * string)) :=
    match r with Some (t, rest) => Some (f t, rest) | None => None end in
  match s with
  | EmptyString => None
  | String c s' =>
      if Ascii.eqb c dquote then Some (EmptyString, s')
      else if Ascii.eqb c backslash then
        match s' with
        | EmptyString => None
        | String e s'' =>
            if Ascii.eqb e "u" then
              match s'' with
              | String h1 (String h2 (String h3 (String h4 r))) =>
                  match hex4 h1 h2 h3 h4 with
                  | None => None
                  | Some hi =>
                      match r with
                      | String _ (String _ (String _ (String _ (String _ (String _ r2))))) =>
                          match (if is_high hi then low_surrogate r else None) with
                          | Some (lo, _) =>
                              cons (utf8 (65536 + (hi - 55296) * 1024 + (lo - 56320))%N)
                                   (scanstring r2)
                          | None => cons (utf8 hi) (scanstring r)
                          end
                      | _ => cons (utf8 hi) (scanstring r)
                      end
                  end
              | _ => None
              end
            else
              match unescape e with
              | Some ch => cons (String ch) (scanstring s'')
              | None => None
              end
        end
      else if (nat_of_ascii c <? 32)%nat then None
      else cons (String c) (scanstring s')
  end.

(** The longest run of digits at the head of [s]. *)
Fixpoint digits (s : string) : string * string :=
  match s with
  | String c s' =>
      if is_digit c then let (d, r) := digits s' in (String c d, r)
      else (EmptyString, s)
  | EmptyString => (EmptyString, s)
  end.

(** The number at the head of [s]: an optional minus sign, then [0] or
    a run of digits that does not start with [0]; then, optionally, a
    point and at least one digit; then, optionally, [e] or [E], an
    optional sign and at least one digit. *)
Definition scan_number (s : string) : option (string * string) :=
  let (sign, s1) :=
    match s with
    | String "-"%char r => ("-", r)
    | _ => ("", s)
    end in
  let integer :=
    match s1 with
    | String "0"%char r => Some ("0", r)
    | String c _ => if is_digit c then Some (digits s1) else None
    | EmptyString => None
    end in
  match integer with
  | None => None
  | Some (int, s2) =>
      let (frac, s3) :=
        match s2 with
        | String "."%char r =>
            match digits r with
            | (EmptyString, _) => ("", s2)
            | (d, r') => (String "."%char d, r')
            end
        | _ => ("", s2)
        end in
      let (exp, s4) :=
        match s3 with
        | String e r =>
            if Ascii.eqb e "e" || Ascii.eqb e "E" then
              let (sg, r1) :=
                match r with
                | String "+" r' => ("+", r')
                | String "-" r' => ("-", r')
                | _ => ("", r)
                end in
              match digits r1 with
              | (EmptyString, _) => ("", s3)
              | (d, r') => (String e (sg ++ d)%string, r')
              end
            else ("", s3)
        | EmptyString => ("", s3)
        end in
      Some ((sign ++ int ++ frac ++ exp)%string, s4)
  end.

(** [s] without the prefix [p], when it starts with it. *)
Fixpoint strip (p s : string) : option string :=
  match p, s with
  | EmptyString, _ => Some s
  | String a p', String b s' => if Ascii.eqb a b then strip p' s' else None
  | String _ _, EmptyString => None
  end.

Definition scan_literal (s : string) : option (json * string) :=
  match strip "null" s, strip "true" s, strip "false" s with
  | Some r, _, _ => Some (JNull, r)
  | _, Some r, _ => Some (JBool true, r)
  | _, _, Some r => Some (JBool false, r)
  | _, _, _ =>
      match scan_number s with
      | Some (n, r) => Some (JNumber n, r)
      | None =>
          match strip "NaN" s, strip "Infinity" s, strip "-Infinity" s with
          | Some r, _, _ => Some (JNumber "NaN", r)
          | _, Some r, _ => Some (JNumber "Infinity", r)
          | _, _, Some r => Some (JNumber "-Infinity", r)
          | _, _, _ => None
          end
      end
  end.

(** The scanner: [scan_once] reads one value, [scan_pairs] the members of
    an object from a key's opening quote on, [scan_items] the items of an
    array. [fuel] bounds the nesting and the number of members; the
    length of the text is enough. *)
Fixpoint scan_once (fuel : nat) (s : string) : option (json * string) :=
  match fuel with
  | O => None
  | S fuel' =>
      match s with
      | EmptyString => None
      | String c s' =>
          if Ascii.eqb c dquote then
            match scanstring s' with
            | Some (t, r) => Some (JString t, r)
            | None => None
            end
          else if Ascii.eqb c "{" then
            match skip_ws s' with
            | String "}"%char r => Some (JObject [], r)
            | String q r =>
                if Ascii.eqb q dquote then
                  match scan_pairs fuel' r [] with
                  | Some (pairs, r') => Some (JObject (dict_of_pairs pairs), r')
                  | None => None
                  end
                else None
            | EmptyString => None
            end
          else if Ascii.eqb c "[" then
            match skip_ws s' with
            | String "]"%char r => Some (JArray [], r)
            | s1 =>
                match scan_items fuel' s1 [] with
                | Some (items, r') => Some (JArray items, r')
                | None => None
                end
            end
          else scan_literal s
      end
  end

with scan_pairs (fuel : nat) (s : string) (acc : list (string * json))
    : option (list (string * json) * string) :=
  match fuel with
  | O => None
  | S fuel' =>
      match scanstring s with
      | None => None
      | Some (key, r) =>
          match skip_ws r with
          | String ":"%char r1 =>
              match scan_once fuel' (skip_ws r1) with
              | None => None
              | Some (v, r2) =>
                  match skip_ws r2 with
                  | String "}"%char r3 => Some (acc ++ [(key, v)], r3)
                  | String ","%char r3 =>
                      match skip_ws r3 with
                      | String q r4 =>
                          if Ascii.eqb q dquote
                          then scan_pairs fuel' r4 (acc ++ [(key, v)])
                          else None
                      | EmptyString => None
                      end
                  | _ => None
                  end
              end
          | _ => None
          end
      end
  end

with scan_items (fuel : nat) (s : string) (acc : list json)
    : option (list json * string) :=
  match fuel with
  | O => None
  | S fuel' =>
      match scan_once fuel' s with
      | None => None
      | Some (v, r) =>
          match skip_ws r with
          | String "]"%char r1 => Some (acc ++ [v], r1)
          | String ","%char r1 => scan_items fuel' (skip_ws r1) (acc ++ [v])
          | _ => None
          end
      end
  end.

(** [json.loads(s)]: one value between optional white space, and nothing
    after it. *)
Definition loads (s : string) : outcome json :=
  match scan_once (S (String.length s)) (skip_ws s) with
  | Some (v, r) =>
      match skip_ws r with
      | EmptyString => Returns v
      | String _ _ => Raises (JSONDecodeError "Extra data")
      end
  | None => Raises (JSONDecodeError "Expecting value")
  end.

(** JSON text written with ['] where the document has a double quote. *)
Definition doc (s : string) : string := Str.replace "'" dquote s.

End Json.

(* ------------------------------------------------------------------ *)
(** * Dates and timestamps *)

Record date : Type := { year : Z; month : Z; day : Z }.

Definition date_compare (a b : date) : comparison :=
  match (year a ?= year b)%Z with
  | Eq => match (month a ?= month b)%Z with
          | Eq => (day a ?= day b)%Z
          | c => c
          end
  | c => c
  end.

(** A warehouse timestamp: its calendar date and the time elapsed since
    midnight, in nanoseconds. *)
Record timestamp : Type := { ts_date : date; ts_nanos : Z }.

Definition ts_compare (a b : timestamp) : comparison :=
  match date_compare (ts_date a) (ts_date b) with
  | Eq => (ts_nanos a ?= ts_nanos b)%Z
  | c => c
  end.

Definition ts_leb (a b : timestamp) : bool :=
  match ts_compare a b with Gt => false | _ => true end.

(** [start_date > end_date] on [datetime.date]. *)
Definition date_gt (a b : date) : Prop := date_compare a b = Gt.

(** The timestamp a date literal ['YYYY-MM-DD'] is cast to. *)
Definition midnight (d : date) : timestamp := {| ts_date := d; ts_nanos := 0 |}.

(** [DATE(t)] *)
Definition DATE (t : option timestamp) : option date := option_map ts_date t.

(* ------------------------------------------------------------------ *)
(** * The warehouse *)

(** One element produced by [LATERAL FLATTEN(input =>
    CONTEXTS_IO_CANDIVORE_USER_BASE_STATS_1) f], as the two expressions the
    statements evaluate on it: [f.value:uuid::string] and
    [f.value:user_name::string]. *)
Record stats_entry : Type := {
  entry_uuid : option string;
  entry_user_name : option string
}.

(** A non-null [CONTEXTS_IO_CANDIVORE_USER_BASE_STATS_1], as the
    expressions the statements evaluate on it: the path [:uuid::string] and
    the rows of its [FLATTEN]. How the two relate depends on the warehouse
    schema; they are independent here. *)
Record user_base_stats : Type := {
  stats_uuid : option string;
  stats_entries : list stats_entry
}.

(** A non-null [UNSTRUCT_EVENT_IO_CANDIVORE_IN_APP_PURCHASE_1]: the text the
    driver delivers for the column, and the value of [:iap_price::float].
    Amounts are rationals: the rounding of FLOAT sums is not represented,
    and no statement below depends on an amount. *)
Record in_app_purchase : Type := {
  purchase_text : string;
  iap_price : option Q
}.

(** A row of [CANDIVORE_TEST_DB.ATOMIC.EVENTS]; [None] is SQL NULL. *)
Record event : Type := {
  GEO_CITY : option string;
  EVENT_NAME : option string;
  derived_tstamp : option timestamp;
  CONTEXTS_USER_BASE_STATS : option user_base_stats;
  UNSTRUCT_IN_APP_PURCHASE : option in_app_purchase
}.

(** The engine object built by [create_engine]; [engine_id] tells two
    engine objects apart. *)
Record Engine : Type := { engine_id : nat }.

(** What lies outside the process: the table, the failure the warehouse
    answers a statement with (if any), and the failure of the n-th attempt
    to build an engine (if any). *)
Record world : Type := {
  EVENTS : list event;
  query_fault : option exn;
  connect_fault : nat -> option exn
}.

(** [pd.read_sql(query, engine)] for a statement whose meaning on the
    table is [q]; [q] is [None] for a statement this development gives no
    meaning to. Without an engine ([init_connection] returned [None]) the
    call raises; so it does when the warehouse fails. *)
Definition read_sql {A} (q : option (list event -> A)) (engine : option Engine)
    (w : world) : outcome A :=
  match engine with
  | None => Raises (AttributeError "'NoneType' object has no attribute 'cursor'")
  | Some _ =>
      match query_fault w with
      | Some e => Raises e
      | None =>
          match q with
          | Some f => Returns (f (EVENTS w))
          | None => Unmodelled
          end
      end
  end.

(* ------------------------------------------------------------------ *)
(** * Relational operators *)

Section Relational.
Context {A K : Type}.

(** Stable insertion sort for [leb]: among rows that compare equal the
    earlier one stays first. The warehouse leaves the order of ties open;
    this is one of the orders it may answer with. *)
Fixpoint insert_by (leb : A -> A -> bool) (x : A) (l : list A) : list A :=
  match l with
  | [] => [x]
  | y :: l' => if leb x y then x :: y :: l' else y :: insert_by leb x l'
  end.

Definition sort_by (leb : A -> A -> bool) (l : list A) : list A :=
  fold_right (insert_by leb) [] l.

(** [GROUP BY key]: the groups in the order their keys first appear,
    each with its rows in table order. *)
Fixpoint add_to_group (eqb : K -> K -> bool) (k : K) (a : A)
    (gs : list (K * list A)) : list (K * list A) :=
  match gs with
  | [] => [(k, [a])]
  | (k', m) :: gs' =>
      if eqb k k' then (k', m ++ [a]) :: gs'
      else (k', m) :: add_to_group eqb k a gs'
  end.

Definition group_by (eqb : K -> K -> bool) (key : A -> K) (l : list A)
    : list (K * list A) :=
  fold_left (fun gs a => add_to_group eqb (key a) a gs) l [].

End Relational.

Definition option_eqb {A} (eqb : A -> A -> bool) (a b : option A) : bool :=
  match a, b with
  | None, None => true
  | Some x, Some y => eqb x y
  | _, _ => false
  end.

Definition is_some {A} (o : option A) : bool :=
  match o with Some _ => true | None => false end.

(** The distinct strings of a list, first occurrences kept; [seen] holds
    the strings met so far. *)
Fixpoint distinct_from (seen l : list string) : list string :=
  match l with
  | [] => []
  | x :: l' =>
      if Str.mem x seen then distinct_from seen l'
      else x :: distinct_from (x :: seen) l'
  end.

Definition distinct (l : list string) : list string := distinct_from [] l.

(** The non-null values of a column. *)
Definition non_null {A} (l : list (option A)) : list A :=
  flat_map (fun o => match o with Some a => [a] | None => [] end) l.

(* ------------------------------------------------------------------ *)
(** * General Statistics: [load_data] *)

Record CityStats : Type := {
  city : option string;
  number_of_users : Z;
  number_of_purchases : Z
}.

(** [derived_tstamp BETWEEN '{start_date}' AND '{end_date}'
     AND CONTEXTS_IO_CANDIVORE_USER_BASE_STATS_1 IS NOT NULL].
    A comparison with NULL does not hold. *)
Definition city_where (start_date end_date : date) (ev : event) : bool :=
  match derived_tstamp ev with
  | Some t => ts_leb (midnight start_date) t && ts_leb t (midnight end_date)
  | None => false
  end && is_some (CONTEXTS_USER_BASE_STATS ev).

Definition is_purchase (ev : event) : bool :=
  option_eqb String.eqb (EVENT_NAME ev) (Some "in_app_purchase").

(** The SELECT list on one group:
    [COUNT(DISTINCT(...:uuid::string))] and
    [SUM(CASE WHEN EVENT_NAME = 'in_app_purchase' THEN 1 ELSE 0 END)]. *)
Definition city_select (g : option string * list event) : CityStats :=
  {| city := fst g;
     number_of_users :=
       Z.of_nat (List.length (distinct (non_null
         (map (fun ev => match CONTEXTS_USER_BASE_STATS ev with
                         | Some c => stats_uuid c
                         | None => None
                         end) (snd g)))));
     number_of_purchases :=
       Z.of_nat (List.length (filter is_purchase (snd g))) |}.

(** [ORDER BY number_of_users DESC] *)
Definition users_desc (a b : CityStats) : bool :=
  (number_of_users b <=? number_of_users a)%Z.

(** The statement of [load_data] on a table. The two dates are
    [datetime.date] values, so their interpolated text is a date literal. *)
Definition city_stats_query (start_date end_date : date) (tbl : list event)
    : list CityStats :=
  firstn 10
    (sort_by users_desc
       (map city_select
          (group_by (option_eqb String.eqb) GEO_CITY
             (filter (city_where start_date end_date) tbl)))).

Definition load_data (engine : option Engine) (w : world)
    (start_date end_date : date) : outcome (list CityStats) :=
  read_sql (Some (city_stats_query start_date end_date)) engine w.

(** [data.nlargest(n, 'number_of_users')]: the first [n] rows in
    descending order of the column, ties in their original order
    ([keep='first']). *)
Definition nlargest (n : nat) (data : list CityStats) : list CityStats :=
  firstn n (sort_by users_desc data).

(** [data.empty] *)
Definition empty {A} (data : list A) : bool :=
  match data with [] => true | _ :: _ => false end.

(* ------------------------------------------------------------------ *)
(** * Events: the purchases of one user *)

Record UserPurchaseRow : Type := {
  purchase_date : option date;
  user_name : option string;
  purchase_data : option string;
  daily_purchase_amount : option Q
}.

(** [FROM CANDIVORE_TEST_DB.ATOMIC.EVENTS, LATERAL FLATTEN(input =>
    CONTEXTS_IO_CANDIVORE_USER_BASE_STATS_1) f]: every event with every
    element of its context; an event whose context is NULL gives none. *)
Definition events_flatten (tbl : list event) : list (event * stats_entry) :=
  flat_map (fun ev =>
    map (pair ev)
        (match CONTEXTS_USER_BASE_STATS ev with
         | Some c => stats_entries c
         | None => []
         end)) tbl.

(** [WHERE f.value:uuid::string = '{user_id}'
      AND EVENT_NAME = 'in_app_purchase'
      AND UNSTRUCT_EVENT_IO_CANDIVORE_IN_APP_PURCHASE_1 IS NOT NULL] *)
Definition purchase_where (user_id : string) (r : event * stats_entry) : bool :=
  option_eqb String.eqb (entry_uuid (snd r)) (Some user_id)
  && is_purchase (fst r)
  && is_some (UNSTRUCT_IN_APP_PURCHASE (fst r)).

Definition date_eqb (a b : date) : bool :=
  match date_compare a b with Eq => true | _ => false end.

Definition purchase_key (r : event * stats_entry)
    : option date * option string * option string :=
  (DATE (derived_tstamp (fst r)),
   entry_user_name (snd r),
   option_map purchase_text (UNSTRUCT_IN_APP_PURCHASE (fst r))).

Definition purchase_key_eqb (a b : option date * option string * option string)
    : bool :=
  option_eqb date_eqb (fst (fst a)) (fst (fst b))
  && option_eqb String.eqb (snd (fst a)) (snd (fst b))
  && option_eqb String.eqb (snd a) (snd b).

(** [SUM(x)]: NULL when no value of the group is non-null. *)
Definition SUM (l : list (option Q)) : option Q :=
  match non_null l with
  | [] => None
  | x :: xs => Some (fold_left Qplus xs x)
  end.

Definition purchase_select
    (g : (option date * option string * option string) * list (event * stats_entry))
    : UserPurchaseRow :=
  {| purchase_date := fst (fst (fst g));
     user_name := snd (fst (fst g));
     purchase_data := snd (fst g);
     daily_purchase_amount :=
       SUM (map (fun r => match UNSTRUCT_IN_APP_PURCHASE (fst r) with
                          | Some p => iap_price p
                          | None => None
                          end) (snd g)) |}.

(** [ORDER BY purchase_date]: ascending, NULL last. *)
Definition purchase_date_asc (a b : UserPurchaseRow) : bool :=
  match purchase_date a, purchase_date b with
  | Some x, Some y => match date_compare x y with Gt => false | _ => true end
  | Some _, None => true
  | None, Some _ => false
  | None, None => true
  end.

Definition user_purchase_query (user_id : string) (tbl : list event)
    : list UserPurchaseRow :=
  sort_by purchase_date_asc
    (map purchase_select
       (group_by purchase_key_eqb purchase_key
          (filter (purchase_where user_id) (events_flatten tbl)))).

(** The text of the Events statement (lines 123 to 140) up to and with
    the quote that opens the literal of the user id, and from the quote
    that closes it on. *)
Definition events_query_prefix : string :=
  "
                SELECT 
                    DATE(derived_tstamp) as purchase_date,
                    f.value:user_name::string AS user_name,
                    UNSTRUCT_EVENT_IO_CANDIVORE_IN_APP_PURCHASE_1 as purchase_data,
                    SUM(UNSTRUCT_EVENT_IO_CANDIVORE_IN_APP_PURCHASE_1:iap_price::float) as daily_purchase_amount
                FROM CANDIVORE_TEST_DB.ATOMIC.EVENTS,
                    LATERAL FLATTEN(input => CONTEXTS_IO_CANDIVORE_USER_BASE_STATS_1) f
                WHERE f.value:uuid::string = '".

Definition events_query_suffix : string :=
  "'
                    AND EVENT_NAME = 'in_app_purchase'
                    AND UNSTRUCT_EVENT_IO_CANDIVORE_IN_APP_PURCHASE_1 IS NOT NULL
                GROUP BY 
                    DATE(derived_tstamp),
                    f.value:user_name::string,
                    UNSTRUCT_EVENT_IO_CANDIVORE_IN_APP_PURCHASE_1
                ORDER BY 
                    purchase_date
                ".

(** The f-string of line 123: the user id is put between the two quotes
    as it was typed. *)
Definition events_query_text (user_id : string) : string :=
  (events_query_prefix ++ user_id ++ events_query_suffix)%string.

(** A string literal of the statement, read from just after its opening
    quote: its value and the text after its closing quote. Two quotes in a
    row stand for one quote of the value; a single quote closes the
    literal. A statement that ends inside a literal is refused. Backslash
    escapes are left out. *)
Fixpoint sql_string_literal (s : string) : outcome (string * string) :=
  match s with
  | EmptyString => Raises (DatabaseError "SQL compilation error: unterminated string")
  | String c s' =>
      if Ascii.eqb c "'" then
        match s' with
        | String c' s'' =>
            if Ascii.eqb c' "'"
            then obind (sql_string_literal s'')
                       (fun vr => Returns (String "'" (fst vr), snd vr))
            else Returns (EmptyString, s')
        | EmptyString => Returns (EmptyString, EmptyString)
        end
      else if Ascii.eqb c Json.backslash then Unmodelled
      else obind (sql_string_literal s')
                 (fun vr => Returns (String c (fst vr), snd vr))
  end.

(** The text put between the quotes of ['{user_id}'] is the string
    compared with when it holds neither a quote nor a backslash. *)
Definition sql_literal_safe (user_id : string) : bool :=
  negb (Str.contains "'" user_id) && negb (Str.contains "\" user_id).

(** The statement of the Events view. With a quote or a backslash in
    [user_id] the text sent is another statement; what the warehouse does
    with it is left out. *)
Definition fetch_user_purchases (engine : option Engine) (w : world)
    (user_id : string) : outcome (list UserPurchaseRow) :=
  read_sql (if sql_literal_safe user_id
            then Some (user_purchase_query user_id)
            else None) engine w.

(* ------------------------------------------------------------------ *)
(** * Data frames of the purchase details *)

(** A cell of an object column: [NaN] for a missing value, a Python value
    otherwise. [Obj JNull] is [None], [Obj (JString s)] a [str]. *)
Inductive cell : Type :=
| NaN
| Obj (v : json)
| DateObj (d : date).

(** A frame with the default index [0 .. index - 1]: its columns in
    order, each with [index] cells. *)
Record DataFrame : Type := {
  index : nat;
  series : dict (list cell)
}.

Definition columns (df : DataFrame) : list string := keys (series df).

(** [json.loads(x) if x else {}] *)
Definition purchase_details (x : option string) : outcome json :=
  match x with
  | None => Returns (JObject [])
  | Some s => if Str.truthy s then Json.loads s else Returns (JObject [])
  end.

Definition as_dict (v : json) : outcome (dict json) :=
  match v with
  | JObject d => Returns d
  | _ => Raises (AttributeError "object has no attribute 'keys'")
  end.

Definition cell_of (v : option json) : cell :=
  match v with Some x => Obj x | None => NaN end.

(** [pd.DataFrame(records)] for a list of dicts: the columns are the keys
    in the order they are first met, a record without the key gets [NaN].
    A cell under a key holds the decoded value; the type pandas then
    infers for the column (a number as a float, [None] among numbers as
    [NaN]) is not represented. *)
Definition from_records (records : list (dict json)) : DataFrame :=
  {| index := List.length records;
     series :=
       map (fun c => (c, map (fun d => cell_of (dict_get c d)) records))
           (distinct (flat_map keys records)) |}.

(** [pd.DataFrame(data)] for the list the script builds. When the first
    item is a dict every item is read as one, and an item that is not has
    no [keys]. When the first item is not a dict, pandas builds the frame
    in another way, which is left out. *)
Definition DataFrame_of_list (data : list json) : outcome DataFrame :=
  match data with
  | [] => Returns {| index := 0; series := [] |}
  | JObject _ :: _ => obind (omap as_dict data) (fun rs => Returns (from_records rs))
  | _ :: _ => Unmodelled
  end.

(** [df[c] = values], [values] having the index of [df]. *)
Definition setitem (df : DataFrame) (c : string) (values : list cell) : DataFrame :=
  {| index := index df; series := dict_set c values (series df) |}.

(** [df[cols]] *)
Definition getitem (df : DataFrame) (cols : list string) : outcome DataFrame :=
  obind (omap (fun c => match dict_get c (series df) with
                        | Some v => Returns (c, v)
                        | None => Raises (KeyError c)
                        end) cols)
        (fun s => Returns {| index := index df; series := s |}).

Definition digit (n : Z) : ascii := ascii_of_N (48 + Z.to_N n).

Definition two_digits (n : Z) : string :=
  String (digit (n / 10)) (String (digit (n mod 10)) EmptyString).

(** [d.strftime('%Y-%m-%d')] for a four-digit year. *)
Definition strftime (d : date) : string :=
  (two_digits (year d / 100) ++ two_digits (year d mod 100) ++ "-"
   ++ two_digits (month d) ++ "-" ++ two_digits (day d))%string.

(** The dates a nanosecond timestamp of pandas can hold. *)
Definition in_timestamp_bounds (d : date) : bool :=
  match date_compare {| year := 1677; month := 9; day := 22 |} d,
        date_compare d {| year := 2262; month := 4; day := 11 |} with
  | Gt, _ | _, Gt => false
  | _, _ => true
  end.

(** One cell of [pd.to_datetime(column).dt.strftime('%Y-%m-%d')]: a date
    is written out, [None] and [NaN] become [NaN]; a date out of bounds
    raises, as pandas does while its timestamps count nanoseconds (up to
    2.x; the statements below that need a date written out assume it in
    bounds). Other values do not occur in the column the script formats. *)
Definition format_date (c : cell) : outcome cell :=
  match c with
  | DateObj d =>
      if in_timestamp_bounds d then Returns (Obj (JString (strftime d)))
      else Raises (OutOfBoundsDatetime "Out of bounds nanosecond timestamp")
  | Obj JNull | NaN => Returns NaN
  | Obj _ => Unmodelled
  end.

Definition date_cell (d : option date) : cell :=
  match d with Some x => DateObj x | None => Obj JNull end.

Definition str_cell (s : option string) : cell :=
  match s with Some x => Obj (JString x) | None => Obj JNull end.

(** An entry of [column_config]: a label alone, or
    [st.column_config.NumberColumn(label, format=...)]. *)
Inductive column_spec : Type :=
| Label (label : string)
| NumberColumn (label : string) (format : string).

Definition is_price_column (col : string) : bool :=
  existsb (fun term => Str.contains term (Str.lower col)) ["price"; "amount"].

(** Lines 163 to 166: the payloads decoded and put in a frame. *)
Definition details_frame (results : list UserPurchaseRow) : outcome DataFrame :=
  obind (omap (fun r => purchase_details (purchase_data r)) results)
        DataFrame_of_list.

Definition fixed_columns : list string := ["purchase_date"; "user_name"].

(** [col not in ['purchase_date', 'user_name']] *)
Definition not_fixed (col : string) : bool := negb (Str.mem col fixed_columns).

(** Lines 169 to 177: the date and the user name set from the query
    result, moved to the front, and the date written out. *)
Definition add_fixed_columns (results : list UserPurchaseRow) (df : DataFrame)
    : outcome DataFrame :=
  let df := setitem df "purchase_date" (map (fun r => date_cell (purchase_date r)) results) in
  let df := setitem df "user_name" (map (fun r => str_cell (user_name r)) results) in
  let cols := fixed_columns ++ filter not_fixed (columns df) in
  obind (getitem df cols) (fun df =>
  obind (omap format_date
           (match dict_get "purchase_date" (series df) with
            | Some v => v
            | None => []
            end)) (fun dates =>
  Returns (setitem df "purchase_date" dates))).

(** The transform of the query result into the detail table. *)
Definition flatten (results : list UserPurchaseRow) : outcome DataFrame :=
  obind (details_frame results) (add_fixed_columns results).

(** The payload of [r] decodes to the dict [d]. *)
Definition decodes_to (r : UserPurchaseRow) (d : dict json) : Prop :=
  purchase_details (purchase_data r) = Returns (JObject d).

(** The purchase dates of the rows fit a nanosecond timestamp. *)
Definition dates_in_bounds (results : list UserPurchaseRow) : Prop :=
  forall r d, In r results -> purchase_date r = Some d ->
              in_timestamp_bounds d = true.

(** A purchase date as the detail table shows it. *)
Definition formatted_date (d : option date) : cell :=
  match d with
  | Some x => Obj (JString (strftime x))
  | None => NaN
  end.

(** The cell of row [i] in column [c]. *)
Definition cell_at (df : DataFrame) (i : nat) (c : string) : option cell :=
  match dict_get c (series df) with
  | Some col => nth_error col i
  | None => None
  end.

(** The strings of a list in the order they are first seen: the head,
    then what is first seen in the tail, the head taken out. *)
Fixpoint first_seen (l : list string) : list string :=
  match l with
  | [] => []
  | x :: l' => x :: filter (fun y => negb (String.eqb x y)) (first_seen l')
  end.

(** Lines 180 to 191. *)
Definition price_format : string := "$.2f".

Definition price_column (col : string) : column_spec :=
  NumberColumn (Str.title (Str.replace "_" " " col)) price_format.

Definition column_config (df : DataFrame) : dict column_spec :=
  fold_left (fun config col => dict_set col (price_column col) config)
    (filter is_price_column (columns df))
    [("purchase_date", Label "Date"); ("user_name", Label "User Name")].

(** The [format] of a number column is a printf-style format: the page
    shows a number as [sprintf(format, value)]. The text outside the
    conversion specifications, which start with [%], is shown as it is; so
    a format without any shows as itself, whatever the number. Formats
    with a conversion are not needed here. *)
Definition sprintf_without_conversion (format : string) : option string :=
  if Str.contains "%" format then None else Some format.

(* ------------------------------------------------------------------ *)
(** * The page *)

(** A table handed to a chart. *)
Inductive frame : Type :=
| city_frame (data : list CityStats)
| purchase_frame (results : list UserPurchaseRow).

(** The figures of [plotly.express]: the table, the columns on the axes
    and the title. The heat map shows [data[[...]].corr()]; correlations
    are floating-point numbers and stay symbolic, as the columns they are
    computed from. *)
Module px.
Inductive figure : Type :=
| scatter (data : frame) (x y : string) (title : string)
| bar (data : frame) (x y : string) (title : string)
| imshow_corr (data : frame) (columns : list string) (title : string).
End px.

Module st.
(** The elements the script puts on the page. [metric_corr label data]
    is [st.metric(label, f"{correlation:.2f}")] for the correlation of
    the two count columns of [data]. *)
Inductive element : Type :=
| title (body : string)
| tabs (names : list string)
| header (body : string)
| subheader (body : string)
| columns (n : nat)
| date_input (label : string) (value : date)
| button (label : string) (clicked : bool)
| text_input (label : string) (value : string)
| plotly_chart (fig : px.figure)
| metric_corr (label : string) (data : list CityStats)
| write (body : string)
| warning (body : string)
| error (body : string)
| dataframe (df : DataFrame) (column_config : dict column_spec).

(** Where an element is put. *)
Inductive container : Type := page | tab1 | tab2 | col1 | col2.
End st.

(** A run of script code: the elements emitted, in order, and how the code
    ended. *)
Definition script (A : Type) : Type :=
  (list (st.container * st.element) * outcome A)%type.

Definition ret {A} (a : A) : script A := ([], Returns a).

Definition bind {A B} (c : script A) (k : A -> script B) : script B :=
  match snd c with
  | Returns a => (fst c ++ fst (k a), snd (k a))
  | Raises e => (fst c, Raises e)
  | Unmodelled => (fst c, Unmodelled)
  end.

Definition emit (where_ : st.container) (e : st.element) : script unit :=
  ([(where_, e)], Returns tt).

(** A call that emits nothing. *)
Definition call {A} (o : outcome A) : script A := ([], o).

(** [try: body  except Exception as e: handler(e)] *)
Definition try_except (body : script unit) (handler : exn -> script unit)
    : script unit :=
  match snd body with
  | Raises e => (fst body ++ fst (handler e), snd (handler e))
  | _ => body
  end.

Declare Scope script_scope.
Delimit Scope script_scope with script.
Notation "x <- c ;; k" := (bind c (fun x => k))
  (at level 61, c at next level, right associativity) : script_scope.
Notation "c ;; k" := (bind c (fun _ => k))
  (at level 61, right associativity) : script_scope.

(** The state of the process that outlives a run of the script: what
    [st.cache_resource] holds for [init_connection] (nothing before the
    first call; then the value returned and the elements emitted by the
    call that computed it), and the engines built so far. *)
Record process : Type := {
  cache_resource : option (option Engine * list st.element);
  attempts : nat;
  engines : list Engine
}.

Definition fresh_process : process :=
  {| cache_resource := None; attempts := 0; engines := [] |}.

(** [create_engine(URL(...))]: a new engine object, unless this attempt
    fails. *)
Definition create_engine (w : world) (p : process) : process * outcome Engine :=
  match connect_fault w (attempts p) with
  | Some e =>
      ({| cache_resource := cache_resource p;
          attempts := S (attempts p);
          engines := engines p |}, Raises e)
  | None =>
      let engine := {| engine_id := List.length (engines p) |} in
      ({| cache_resource := cache_resource p;
          attempts := S (attempts p);
          engines := engines p ++ [engine] |}, Returns engine)
  end.

(** The body of [init_connection]. *)
Definition init_connection_body (w : world) (p : process)
    : process * (option Engine * list st.element) :=
  match create_engine w p with
  | (p', Returns engine) => (p', (Some engine, []))
  | (p', Raises e) =>
      (p', (None, [st.error ("Error connecting to Snowflake: " ++ str_exn e)]))
  | (p', Unmodelled) => (p', (None, []))
  end.

(** [init_connection()] under [@st.cache_resource]: the body runs when
    nothing is memoized, and its result is kept; otherwise the memoized
    value is returned, and the elements of the memoized call are shown
    again. *)
Definition init_connection (w : world) (p : process)
    : process * (option Engine * list st.element) :=
  match cache_resource p with
  | Some r => (p, r)
  | None =>
      let (p', r) := init_connection_body w p in
      ({| cache_resource := Some r;
          attempts := attempts p';
          engines := engines p' |}, r)
  end.

(** What the widgets return in one run of the script. *)
Record inputs : Type := {
  start_date : date;
  end_date : date;
  Run : bool;
  user_id : string
}.

Local Open Scope script_scope.

(** Lines 70 to 113. *)
Definition general_statistics (engine : option Engine) (w : world) (i : inputs)
    : script unit :=
  emit st.tab1 (st.header "General Statistics") ;;
  emit st.tab1 (st.columns 2) ;;
  emit st.col1 (st.date_input "Start Date" (start_date i)) ;;
  emit st.col2 (st.date_input "End Date" (end_date i)) ;;
  emit st.tab1 (st.button "Run" (Run i)) ;;
  if Run i then
    data <- call (load_data engine w (start_date i) (end_date i)) ;;
    if negb (empty data) then
      emit st.tab1 (st.subheader "Distribution of Users and Purchases by City") ;;
      emit st.tab1 (st.plotly_chart
        (px.scatter (city_frame data) "number_of_users" "number_of_purchases"
                    "Users vs Purchases by City")) ;;
      emit st.tab1 (st.subheader "Top 10 Cities by Number of Users") ;;
      let top_10_cities := nlargest 10 data in
      emit st.tab1 (st.plotly_chart
        (px.bar (city_frame top_10_cities) "city" "number_of_users"
                "Top 10 Cities by Number of Users")) ;;
      emit st.tab1 (st.subheader "Correlation Matrix") ;;
      emit st.tab1 (st.plotly_chart
        (px.imshow_corr (city_frame data)
                        ["number_of_users"; "number_of_purchases"]
                        "Correlation Matrix")) ;;
      emit st.tab1 (st.metric_corr
        "Correlation between Number of Users and Total Purchases" data)
    else
      emit st.tab1 (st.write "No data available for the selected date range.")
  else ret tt.

(** The General Statistics view as the specification has it: the bar
    chart drawn from the query result itself, without a second top-10
    selection. *)
Definition general_statistics_collapsed (engine : option Engine) (w : world)
    (i : inputs) : script unit :=
  emit st.tab1 (st.header "General Statistics") ;;
  emit st.tab1 (st.columns 2) ;;
  emit st.col1 (st.date_input "Start Date" (start_date i)) ;;
  emit st.col2 (st.date_input "End Date" (end_date i)) ;;
  emit st.tab1 (st.button "Run" (Run i)) ;;
  if Run i then
    data <- call (load_data engine w (start_date i) (end_date i)) ;;
    if negb (empty data) then
      emit st.tab1 (st.subheader "Distribution of Users and Purchases by City") ;;
      emit st.tab1 (st.plotly_chart
        (px.scatter (city_frame data) "number_of_users" "number_of_purchases"
                    "Users vs Purchases by City")) ;;
      emit st.tab1 (st.subheader "Top 10 Cities by Number of Users") ;;
      emit st.tab1 (st.plotly_chart
        (px.bar (city_frame data) "city" "number_of_users"
                "Top 10 Cities by Number of Users")) ;;
      emit st.tab1 (st.subheader "Correlation Matrix") ;;
      emit st.tab1 (st.plotly_chart
        (px.imshow_corr (city_frame data)
                        ["number_of_users"; "number_of_purchases"]
                        "Correlation Matrix")) ;;
      emit st.tab1 (st.metric_corr
        "Correlation between Number of Users and Total Purchases" data)
    else
      emit st.tab1 (st.write "No data available for the selected date range.")
  else ret tt.

(** [str(x)] for a string that may be [None]. *)
Definition str_option (s : option string) : string :=
  match s with Some x => x | None => "None" end.

(** [str(results['user_name'].iloc[0])] *)
Definition first_user_name (results : list UserPurchaseRow) : string :=
  str_option (match results with
              | r :: _ => user_name r
              | [] => None
              end).

(** Lines 145 to 202: what the Events view does with the query result. *)
Definition show_purchases (results : list UserPurchaseRow) : script unit :=
  if negb (empty results) then
    let name := first_user_name results in
    emit st.tab2 (st.subheader ("Purchase Data for User: " ++ name)) ;;
    emit st.tab2 (st.plotly_chart
      (px.bar (purchase_frame results) "purchase_date" "daily_purchase_amount"
              ("Daily Purchase Amounts for " ++ name))) ;;
    df <- call (flatten results) ;;
    emit st.tab2 (st.subheader "Detailed Purchase Information") ;;
    emit st.tab2 (st.dataframe df (column_config df))
  else
    emit st.tab2 (st.warning "No purchase data found for this user ID.").

(** Lines 116 to 205. *)
Definition events (engine : option Engine) (w : world) (i : inputs)
    : script unit :=
  emit st.tab2 (st.header "Events") ;;
  emit st.tab2 (st.text_input "Enter User ID" (user_id i)) ;;
  if Str.truthy (user_id i) then
    try_except
      (results <- call (fetch_user_purchases engine w (user_id i)) ;;
       show_purchases results)
      (fun e => emit st.tab2 (st.error ("Error executing query: " ++ str_exn e)))
  else ret tt.

(** [main()]: the process state after the run, and the run. *)
Definition main (w : world) (p : process) (i : inputs) : process * script unit :=
  let '(p', (engine, shown)) := init_connection w p in
  (p',
   emit st.page (st.title "Match Masters Analysis") ;;
   emit st.page (st.tabs ["General Statistics"; "Events"]) ;;
   (map (pair st.page) shown, Returns tt) ;;
   general_statistics engine w i ;;
   events engine w i).

Local Close Scope script_scope.

(** [init_connection()] called once in each of the worlds [ws], in turn:
    the state in the end and the values returned. *)
Fixpoint init_connection_calls (ws : list world) (p : process)
    : process * list (option Engine) :=
  match ws with
  | [] => (p, [])
  | w :: ws' =>
      let (p1, r) := init_connection w p in
      let (p2, rs) := init_connection_calls ws' p1 in
      (p2, fst r :: rs)
  end.

Definition is_error (e : st.container * st.element) : bool :=
  match snd e with st.error _ => true | _ => false end.

Definition is_dataframe (e : st.container * st.element) : bool :=
  match snd e with st.dataframe _ _ => true | _ => false end.

(* ------------------------------------------------------------------ *)
(** * A sample warehouse *)

Module Sample.

Definition day_of (y m d : Z) : date := {| year := y; month := m; day := d |}.

Definition user (uuid name : string) : user_base_stats :=
  {| stats_uuid := Some uuid;
     stats_entries := [ {| entry_uuid := Some uuid; entry_user_name := Some name |} ] |}.

Definition login (city : string) (t : date) (u : user_base_stats) : event :=
  {| GEO_CITY := Some city; EVENT_NAME := Some "login";
     derived_tstamp := Some {| ts_date := t; ts_nanos := 3600 |};
     CONTEXTS_USER_BASE_STATS := Some u;
     UNSTRUCT_IN_APP_PURCHASE := None |}.

Definition purchase (city : string) (t : date) (u : user_base_stats)
    (payload : string) (price : Q) : event :=
  {| GEO_CITY := Some city; EVENT_NAME := Some "in_app_purchase";
     derived_tstamp := Some {| ts_date := t; ts_nanos := 7200 |};
     CONTEXTS_USER_BASE_STATS := Some u;
     UNSTRUCT_IN_APP_PURCHASE :=
       Some {| purchase_text := Json.doc payload; iap_price := Some price |} |}.

Definition dana := user "u1" "Dana".
Definition omer := user "u2" "Omer".
Definition noa := user "u3" "Noa".
Definition gil := user "u9" "Gil".

Definition table : list event :=
  [ purchase "Haifa" (day_of 2024 5 2) dana
      "{'iap_price': 4.99, 'sku': 'gems'}" (499 # 100);
    login "Tel Aviv" (day_of 2024 5 3) omer;
    purchase "Tel Aviv" (day_of 2024 5 1) dana
      "{'iap_price': 1.99, 'user_name': 'x', 'Total_Amount': 3}" (199 # 100);
    login "Tel Aviv" (day_of 2024 5 3) noa;
    purchase "Haifa" (day_of 2024 5 4) gil "{'sku': 'coins'}" (99 # 100);
    purchase "Haifa" (day_of 2024 5 5) gil "{'iap_price': 0.99" (99 # 100) ].

Definition warehouse : world :=
  {| EVENTS := table; query_fault := None; connect_fault := fun _ => None |}.

(** The same table behind a warehouse that times out. *)
Definition warehouse_down : world :=
  {| EVENTS := table;
     query_fault := Some (DatabaseError "Statement reached its timeout");
     connect_fault := fun _ => None |}.

Definition engine : Engine := {| engine_id := 0 |}.

(** A warehouse to which no engine can be built. *)
Definition unreachable : world :=
  {| EVENTS := table; query_fault := None;
     connect_fault := fun _ => Some (ConnectError "Invalid account") |}.

Definition week : inputs :=
  {| start_date := day_of 2024 5 1; end_date := day_of 2024 5 7;
     Run := true; user_id := "u1" |}.

(** The same dates the wrong way round. *)
Definition week_reversed : inputs :=
  {| start_date := day_of 2024 5 7; end_date := day_of 2024 5 1;
     Run := true; user_id := "" |}.

Definition stranger : inputs :=
  {| start_date := day_of 2024 5 1; end_date := day_of 2024 5 7;
     Run := false; user_id := "nobody" |}.

Definition ask_gil : inputs :=
  {| start_date := day_of 2024 5 1; end_date := day_of 2024 5 7;
     Run := false; user_id := "u9" |}.

Definition week_stats : list CityStats :=
  [ {| city := Some "Tel Aviv"; number_of_users := 3; number_of_purchases := 1 |};
    {| city := Some "Haifa"; number_of_users := 2; number_of_purchases := 3 |} ].

(** The decoded payloads of Dana's two purchases, by date. *)
Definition dana_records : list (dict json) :=
  [ [("iap_price", JNumber "1.99"); ("user_name", JString "x");
     ("Total_Amount", JNumber "3")];
    [("iap_price", JNumber "4.99"); ("sku", JString "gems")] ].

(** What the warehouse answers for Dana and for Gil. *)
Definition dana_rows : list UserPurchaseRow := user_purchase_query "u1" table.
Definition gil_rows : list UserPurchaseRow := user_purchase_query "u9" table.

End Sample.

(** Rows in non-increasing order of [number_of_users]. *)
Definition users_non_increasing (data : list CityStats) : Prop :=
  Sorted (fun a b => (number_of_users b <= number_of_users a)%Z) data.

(* ------------------------------------------------------------------ *)
(** * Notions used in the further properties *)

(** [gs] groups [l] by [key]: no key twice; the rows of a group are the
    rows of [l] with its key, in the order of [l], and there is one at
    least; every row of [l] has its group. *)
Definition grouped {A K} (eqb : K -> K -> bool) (key : A -> K) (l : list A)
    (gs : list (K * list A)) : Prop :=
  NoDup (map fst gs)
  /\ (forall k m, In (k, m) gs ->
        m = filter (fun x => eqb (key x) k) l /\ m <> [])
  /\ (forall x, In x l -> In (key x) (map fst gs)).

(** The rows of the statement of [load_data] before ORDER BY and LIMIT. *)
Definition city_stats_groups (start_date end_date : date) (tbl : list event)
    : list CityStats :=
  map city_select
    (group_by (option_eqb String.eqb) GEO_CITY
       (filter (city_where start_date end_date) tbl)).

(** The events of city [c] that the WHERE clause of [load_data] keeps. *)
Definition events_of_city (start_date end_date : date) (tbl : list event)
    (c : option string) : list event :=
  filter (fun ev => option_eqb String.eqb (GEO_CITY ev) c)
         (filter (city_where start_date end_date) tbl).

(** [CONTEXTS_IO_CANDIVORE_USER_BASE_STATS_1:uuid::string] on an event. *)
Definition user_uuid (ev : event) : option string :=
  match CONTEXTS_USER_BASE_STATS ev with
  | Some c => stats_uuid c
  | None => None
  end.

(** The three columns the Events statement groups by. *)
Definition row_key (r : UserPurchaseRow)
    : option date * option string * option string :=
  (purchase_date r, user_name r, purchase_data r).

(** [ev] is a purchase event of the table, with payload [p], and [f] is
    an element of its user context whose uuid is [user_id]. *)
Definition purchase_of (user_id : string) (tbl : list event)
    (ev : event) (f : stats_entry) (p : in_app_purchase) : Prop :=
  In ev tbl
  /\ (exists c, CONTEXTS_USER_BASE_STATS ev = Some c /\ In f (stats_entries c))
  /\ entry_uuid f = Some user_id
  /\ EVENT_NAME ev = Some "in_app_purchase"
  /\ UNSTRUCT_IN_APP_PURCHASE ev = Some p.

Definition is_warning (e : st.container * st.element) : bool :=
  match snd e with st.warning _ => true | _ => false end.

(** The elements by which the Events view answers an entered id: the
    detail table, the warning or the error. *)
Definition is_answer (e : st.container * st.element) : bool :=
  is_dataframe e || is_warning e || is_error e.

Definition in_events_tab (e : st.container * st.element) : bool :=
  match fst e with st.tab2 => true | _ => false end.

Definition in_statistics_tab (e : st.container * st.element) : bool :=
  match fst e with st.tab1 | st.col1 | st.col2 => true | _ => false end.

(** At most one attempt to build an engine has been made, and none
    while nothing is memoized. *)
Definition built_once (p : process) : Prop :=
  match cache_resource p with
  | None => attempts p = 0%nat /\ engines p = []
  | Some _ => attempts p = 1%nat /\ (List.length (engines p) <= 1)%nat
  end.

(** The script run once for each of [runs] in turn, in one process: the
    state in the end and what each run did. *)
Fixpoint main_runs (runs : list (world * inputs)) (p : process)
    : process * list (script unit) :=
  match runs with
  | [] => (p, [])
  | (w, i) :: runs' =>
      let (p1, r) := main w p i in
      let (p2, rs) := main_runs runs' p1 in
      (p2, r :: rs)
  end.

(* ================================================================== *)
(** * Properties *)

Section SortFacts.
Context {A : Type} (leb : A -> A -> bool).

Lemma insert_by_length (x : A) (l : list A) :
  List.length (insert_by leb x l) = S (List.length l).
Proof.
  induction l as [|y l IH]; simpl; [reflexivity|].
  destruct (leb x y); simpl; congruence.
Qed.

Lemma sort_by_length (l : list A) :
  List.length (sort_by leb l) = List.length l.
Proof.
  induction l as [|x l IH]; simpl; [reflexivity|].
  rewrite insert_by_length. congruence.
Qed.

Lemma insert_by_perm (x : A) (l : list A) :
  Permutation (x :: l) (insert_by leb x l).
Proof.
  induction l as [|y l IH]; simpl; [reflexivity|].
  destruct (leb x y); [reflexivity|].
  rewrite perm_swap. now constructor.
Qed.

Lemma sort_by_perm (l : list A) : Permutation l (sort_by leb l).
Proof.
  induction l as [|x l IH]; simpl; [constructor|].
  rewrite <- insert_by_perm. now constructor.
Qed.

Hypothesis leb_total : forall a b, leb a b = false -> leb b a = true.

Let ord (a b : A) : Prop := leb a b = true.

Lemma insert_by_sorted (x : A) (l : list A) :
  Sorted ord l -> Sorted ord (insert_by leb x l).
Proof.
  induction 1 as [|y l Hs IH Hhd]; simpl.
  - repeat constructor.
  - destruct (leb x y) eqn:E.
    + constructor; [now constructor|]. now constructor.
    + constructor; [exact IH|].
      destruct Hhd as [|z l Hz]; simpl.
      * constructor. now apply leb_total.
      * destruct (leb x z); constructor; [now apply leb_total | exact Hz].
Qed.

Lemma sort_by_sorted (l : list A) : Sorted ord (sort_by leb l).
Proof.
  induction l as [|x l IH]; simpl; [constructor|].
  now apply insert_by_sorted.
Qed.

(** Sorting a list that is in order already changes nothing. *)
Lemma sort_by_fixpoint (l : list A) : Sorted ord l -> sort_by leb l = l.
Proof.
  induction 1 as [|x l Hs IH Hhd]; simpl; [reflexivity|].
  rewrite IH. destruct Hhd as [|y l Hxy]; simpl; [reflexivity|].
  unfold ord in Hxy. now rewrite Hxy.
Qed.

End SortFacts.

Lemma firstn_sorted {A} (R : A -> A -> Prop) (n : nat) (l : list A) :
  Sorted R l -> Sorted R (firstn n l).
Proof.
  intros H. revert n. induction H as [|x l Hs IH Hhd]; intros [|n]; simpl;
    try constructor.
  - apply IH.
  - destruct Hhd as [|y l Hxy]; destruct n; simpl; constructor. exact Hxy.
Qed.





Lemma bind_call_returns {A B} (a : A) (k : A -> script B) :
  bind (call (Returns a)) k = k a.
Proof. unfold bind, call. simpl. now destruct (k a). Qed.

Lemma snd_bind_emit {B} where_ x (k : unit -> script B) :
  snd (bind (emit where_ x) k) = snd (k tt).
Proof. reflexivity. Qed.

Lemma Sorted_weaken {A} (R R' : A -> A -> Prop) (l : list A) :
  (forall a b, R a b -> R' a b) -> Sorted R l -> Sorted R' l.
Proof.
  intros HR. induction 1 as [|x l Hs IH Hhd]; constructor; [exact IH|].
  destruct Hhd; constructor. now apply HR.
Qed.

Lemma users_desc_total (a b : CityStats) :
  users_desc a b = false -> users_desc b a = true.
Proof. unfold users_desc. lia. Qed.

(* ------------------------------------------------------------------ *)
(** ** General Statistics *)

(** What [read_sql] returns is the meaning of the statement on the table. *)
Lemma read_sql_returns {A} (q : option (list event -> A)) engine w (a : A) :
  read_sql q engine w = Returns a ->
  exists f, q = Some f /\ a = f (EVENTS w).
Proof.
  unfold read_sql. destruct engine; [|discriminate].
  destruct (query_fault w); [discriminate|].
  destruct q as [f|]; [|discriminate].
  intros [= <-]. now exists f.
Qed.

Lemma load_data_returns_query engine w start_date end_date data :
  load_data engine w start_date end_date = Returns data ->
  data = city_stats_query start_date end_date (EVENTS w).
Proof.
  intros H. apply read_sql_returns in H. destruct H as (f & [= <-] & ->).
  reflexivity.
Qed.

(** On a connection that answers, [load_data] does return. *)
Lemma load_data_total engine w start_date end_date :
  query_fault w = None ->
  load_data (Some engine) w start_date end_date
  = Returns (city_stats_query start_date end_date (EVENTS w)).
Proof. intros H. unfold load_data, read_sql. now rewrite H. Qed.

Lemma city_stats_query_top10 start_date end_date tbl :
  (List.length (city_stats_query start_date end_date tbl) <= 10)%nat.
Proof. unfold city_stats_query. apply firstn_le_length. Qed.

Lemma city_stats_query_sorted start_date end_date tbl :
  users_non_increasing (city_stats_query start_date end_date tbl).
Proof.
  unfold city_stats_query, users_non_increasing.
  apply firstn_sorted.
  eapply Sorted_weaken; [|apply sort_by_sorted, users_desc_total].
  unfold users_desc. intros a b. lia.
Qed.

(** C1. Every table that [load_data] returns has at most 10 rows, and its
    rows are in non-increasing order of [number_of_users]. *)
Theorem load_data_top10_sorted engine w start_date end_date data :
  load_data engine w start_date end_date = Returns data ->
  (List.length data <= 10)%nat /\ users_non_increasing data.
Proof.
  intros H. apply load_data_returns_query in H. subst data. split.
  - apply city_stats_query_top10.
  - apply city_stats_query_sorted.
Qed.

Lemma load_data_top10_sorted_witness :
  load_data (Some Sample.engine) Sample.warehouse
    (Sample.day_of 2024 5 1) (Sample.day_of 2024 5 7) = Returns Sample.week_stats
  /\ (List.length Sample.week_stats <= 10)%nat
  /\ users_non_increasing Sample.week_stats.
Proof.
  split; [reflexivity|].
  apply (load_data_top10_sorted (Some Sample.engine) Sample.warehouse
           (Sample.day_of 2024 5 1) (Sample.day_of 2024 5 7)).
  reflexivity.
Defined.

(** The order of timestamps, and of dates, in terms of their fields. *)
Lemma ts_leb_iff (a b : timestamp) :
  ts_leb a b = true <->
  (year (ts_date a) < year (ts_date b)
   \/ year (ts_date a) = year (ts_date b)
      /\ (month (ts_date a) < month (ts_date b)
          \/ month (ts_date a) = month (ts_date b)
             /\ (day (ts_date a) < day (ts_date b)
                 \/ day (ts_date a) = day (ts_date b)
                    /\ ts_nanos a <= ts_nanos b)))%Z.
Proof.
  unfold ts_leb, ts_compare, date_compare.
  destruct (Z.compare_spec (year (ts_date a)) (year (ts_date b)));
  destruct (Z.compare_spec (month (ts_date a)) (month (ts_date b)));
  destruct (Z.compare_spec (day (ts_date a)) (day (ts_date b)));
  destruct (Z.compare_spec (ts_nanos a) (ts_nanos b));
  split; intros; try lia; try discriminate; reflexivity.
Qed.

Lemma date_gt_iff (a b : date) :
  date_gt a b <->
  (year b < year a
   \/ year a = year b
      /\ (month b < month a \/ month a = month b /\ day b < day a))%Z.
Proof.
  unfold date_gt, date_compare.
  destruct (Z.compare_spec (year a) (year b));
  destruct (Z.compare_spec (month a) (month b));
  destruct (Z.compare_spec (day a) (day b));
  split; intros; try lia; try discriminate; reflexivity.
Qed.

(** No timestamp lies between the midnights of a reversed range. *)
Lemma city_where_reversed start_date end_date ev :
  date_gt start_date end_date -> city_where start_date end_date ev = false.
Proof.
  intros Hgt. apply date_gt_iff in Hgt. unfold city_where.
  destruct (derived_tstamp ev) as [t|]; [|reflexivity].
  destruct (ts_leb (midnight start_date) t) eqn:E1; [|reflexivity].
  destruct (ts_leb t (midnight end_date)) eqn:E2; [|reflexivity].
  apply ts_leb_iff in E1, E2. simpl in E1, E2. lia.
Qed.

Lemma filter_nothing {A} (f : A -> bool) (l : list A) :
  (forall x, In x l -> f x = false) -> filter f l = [].
Proof.
  induction l as [|x l IH]; simpl; intros H; [reflexivity|].
  rewrite (H x) by now left. apply IH. intros y Hy. apply H. now right.
Qed.

Lemma city_stats_query_reversed start_date end_date tbl :
  date_gt start_date end_date -> city_stats_query start_date end_date tbl = [].
Proof.
  intros Hgt. unfold city_stats_query.
  rewrite filter_nothing; [reflexivity|].
  intros ev _. now apply city_where_reversed.
Qed.

(** C6. With [start_date > end_date], on a connection that answers,
    [load_data] returns the empty table: it does not raise, no validation
    error is produced, and the view writes that there is no data. *)
Theorem load_data_reversed_range_empty engine w i :
  query_fault w = None ->
  date_gt (start_date i) (end_date i) ->
  Run i = true ->
  load_data (Some engine) w (start_date i) (end_date i) = Returns []
  /\ general_statistics (Some engine) w i
     = ([ (st.tab1, st.header "General Statistics");
          (st.tab1, st.columns 2);
          (st.col1, st.date_input "Start Date" (start_date i));
          (st.col2, st.date_input "End Date" (end_date i));
          (st.tab1, st.button "Run" true);
          (st.tab1, st.write "No data available for the selected date range.") ],
        Returns tt).
Proof.
  intros Hw Hgt Hrun.
  assert (Hload : load_data (Some engine) w (start_date i) (end_date i) = Returns []).
  { rewrite load_data_total by exact Hw.
    now rewrite city_stats_query_reversed. }
  split; [exact Hload|].
  unfold general_statistics. rewrite Hrun, Hload. reflexivity.
Qed.

Lemma load_data_reversed_range_empty_witness :
  query_fault Sample.warehouse = None
  /\ date_gt (start_date Sample.week_reversed) (end_date Sample.week_reversed)
  /\ Run Sample.week_reversed = true
  /\ load_data (Some Sample.engine) Sample.warehouse
       (start_date Sample.week_reversed) (end_date Sample.week_reversed)
     = Returns [].
Proof.
  repeat (split; [reflexivity|]).
  apply (load_data_reversed_range_empty Sample.engine Sample.warehouse
           Sample.week_reversed); reflexivity.
Defined.

(** The first ten rows of any descending arrangement of the groups are
    left as they are by [nlargest]: this does not depend on how the
    warehouse orders cities with the same number of users. *)
Lemma nlargest_of_top10 (ordered : list CityStats) :
  users_non_increasing ordered ->
  nlargest 10 (firstn 10 ordered) = firstn 10 ordered.
Proof.
  intros H. unfold nlargest. rewrite sort_by_fixpoint.
  - apply firstn_all2, firstn_le_length.
  - apply firstn_sorted. eapply Sorted_weaken; [|exact H].
    unfold users_desc. intros a b. lia.
Qed.

Lemma city_stats_query_nlargest start_date end_date tbl :
  nlargest 10 (city_stats_query start_date end_date tbl)
  = city_stats_query start_date end_date tbl.
Proof.
  unfold city_stats_query. apply nlargest_of_top10.
  eapply Sorted_weaken; [|apply sort_by_sorted, users_desc_total].
  unfold users_desc. intros a b. lia.
Qed.

(** C9. On every table that [load_data] returns, [nlargest(10,
    'number_of_users')] gives the table back, rows and order: the bar
    chart is drawn from the query result itself. *)
Theorem nlargest_of_load_data engine w start_date end_date data :
  load_data engine w start_date end_date = Returns data ->
  nlargest 10 data = data.
Proof.
  intros H. apply read_sql_returns in H.
  destruct H as (q & Hq & ->). injection Hq as <-.
  apply city_stats_query_nlargest.
Qed.

Lemma nlargest_of_load_data_witness :
  load_data (Some Sample.engine) Sample.warehouse
    (Sample.day_of 2024 5 1) (Sample.day_of 2024 5 7) = Returns Sample.week_stats
  /\ nlargest 10 Sample.week_stats = Sample.week_stats.
Proof.
  split; [reflexivity|].
  apply (nlargest_of_load_data (Some Sample.engine) Sample.warehouse
           (Sample.day_of 2024 5 1) (Sample.day_of 2024 5 7)).
  reflexivity.
Defined.

(** The view of the script and the view without the second selection emit
    the same elements and end the same way, on every input. *)
Lemma general_statistics_collapses engine w i :
  general_statistics engine w i = general_statistics_collapsed engine w i.
Proof.
  unfold general_statistics, general_statistics_collapsed.
  destruct (Run i); [|reflexivity].
  destruct (load_data engine w (start_date i) (end_date i)) as [data| |] eqn:E;
    [|reflexivity|reflexivity].
  rewrite !bind_call_returns.
  apply load_data_returns_query in E. subst data.
  now rewrite city_stats_query_nlargest.
Qed.

(* ------------------------------------------------------------------ *)
(** ** The memoized connection *)

(** Once a value is memoized, a call returns it and changes nothing. *)
Lemma init_connection_hit w p r :
  cache_resource p = Some r -> init_connection w p = (p, r).
Proof. intros H. unfold init_connection. now rewrite H. Qed.

(** After a call, its value is memoized. *)
Lemma init_connection_memoizes w p p' r :
  init_connection w p = (p', r) -> cache_resource p' = Some r.
Proof.
  unfold init_connection.
  destruct (cache_resource p) as [r0|] eqn:E.
  - intros [= <- <-]. exact E.
  - destruct (init_connection_body w p) as [p1 r1]. now intros [= <- <-].
Qed.

Lemma init_connection_calls_hit ws p r :
  cache_resource p = Some r ->
  init_connection_calls ws p = (p, map (fun _ => fst r) ws).
Proof.
  intros H. induction ws as [|w ws IH]; simpl; [reflexivity|].
  rewrite (init_connection_hit w p r H), IH. reflexivity.
Qed.

(** The first call in a new process builds at most one engine: the one it
    returns, if any. *)
Lemma init_connection_first w p r :
  init_connection w fresh_process = (p, r) ->
  engines p = match fst r with Some engine => [engine] | None => [] end.
Proof.
  unfold init_connection, init_connection_body, create_engine. simpl.
  destruct (connect_fault w 0); intros [= <- <-]; reflexivity.
Qed.

(** C8. When the first call of [init_connection] in a process has built
    an engine, every later call returns that same engine object, whatever
    the state of the world then, and no other engine is ever built. *)
Theorem init_connection_memoized w p engine shown ws :
  init_connection w fresh_process = (p, (Some engine, shown)) ->
  Forall (eq (Some engine)) (snd (init_connection_calls ws p))
  /\ List.length (snd (init_connection_calls ws p)) = List.length ws
  /\ engines (fst (init_connection_calls ws p)) = [engine]
  /\ attempts (fst (init_connection_calls ws p)) = 1%nat.
Proof.
  intros H.
  rewrite (init_connection_calls_hit ws p _ (init_connection_memoizes _ _ _ _ H)).
  simpl. repeat split.
  - apply Forall_forall. intros x Hx. apply in_map_iff in Hx.
    now destruct Hx as (_ & <- & _).
  - apply length_map.
  - now rewrite (init_connection_first _ _ _ H).
  - revert H. unfold init_connection, init_connection_body, create_engine. simpl.
    destruct (connect_fault w 0); now intros [= <- _].
Qed.

Lemma init_connection_memoized_witness :
  init_connection Sample.warehouse fresh_process
  = ({| cache_resource := Some (Some Sample.engine, []);
        attempts := 1;
        engines := [Sample.engine] |}, (Some Sample.engine, []))
  /\ Forall (eq (Some Sample.engine))
       (snd (init_connection_calls
               [Sample.warehouse_down; Sample.warehouse; Sample.warehouse]
               {| cache_resource := Some (Some Sample.engine, []);
                  attempts := 1;
                  engines := [Sample.engine] |})).
Proof.
  split; [reflexivity|].
  refine (proj1 (init_connection_memoized Sample.warehouse _ Sample.engine []
           [Sample.warehouse_down; Sample.warehouse; Sample.warehouse] _)).
  reflexivity.
Defined.

(* ------------------------------------------------------------------ *)
(** ** Errors of the warehouse *)

(** The Events view catches what its query raises and shows it. *)
Lemma events_shows_query_error engine w i e :
  Str.truthy (user_id i) = true ->
  fetch_user_purchases engine w (user_id i) = Raises e ->
  events engine w i
  = ([ (st.tab2, st.header "Events");
       (st.tab2, st.text_input "Enter User ID" (user_id i));
       (st.tab2, st.error ("Error executing query: " ++ str_exn e)) ],
     Returns tt).
Proof.
  intros Hid Hq. unfold events, call. rewrite Hid, Hq. reflexivity.
Qed.

(** A handler that does not raise leaves nothing to escape. *)
Lemma try_except_never_raises body handler e :
  (forall e', snd (handler e') <> Raises e) ->
  snd (try_except body handler) <> Raises e.
Proof.
  intros Hh. unfold try_except.
  destruct (snd body) as [[]|e'|] eqn:E; simpl; rewrite ?E;
    try discriminate. apply Hh.
Qed.

(** No exception leaves the Events view. *)
Lemma events_never_raises engine w i e :
  snd (events engine w i) <> Raises e.
Proof.
  unfold events. rewrite !snd_bind_emit.
  destruct (Str.truthy (user_id i)); [|discriminate].
  apply try_except_never_raises. discriminate.
Qed.

(** The General Statistics view lets what [load_data] raises through, and
    emits nothing after the button. *)
Lemma general_statistics_propagates engine w i e :
  Run i = true ->
  load_data engine w (start_date i) (end_date i) = Raises e ->
  general_statistics engine w i
  = ([ (st.tab1, st.header "General Statistics");
       (st.tab1, st.columns 2);
       (st.col1, st.date_input "Start Date" (start_date i));
       (st.col2, st.date_input "End Date" (end_date i));
       (st.tab1, st.button "Run" true) ],
     Raises e).
Proof.
  intros Hrun Hload. unfold general_statistics. rewrite Hrun, Hload. reflexivity.
Qed.

(** C2. A warehouse that times out while [Run] is pressed: the exception
    leaves [main], no [st.error] is emitted, and the Events view, although
    a user id is entered, is not reached. *)
Theorem general_statistics_error_escapes :
  snd (main Sample.warehouse_down fresh_process Sample.week)
  = ([ (st.page, st.title "Match Masters Analysis");
       (st.page, st.tabs ["General Statistics"; "Events"]);
       (st.tab1, st.header "General Statistics");
       (st.tab1, st.columns 2);
       (st.col1, st.date_input "Start Date" (Sample.day_of 2024 5 1));
       (st.col2, st.date_input "End Date" (Sample.day_of 2024 5 7));
       (st.tab1, st.button "Run" true) ],
     Raises (DatabaseError "Statement reached its timeout"))
  /\ existsb is_error (fst (snd (main Sample.warehouse_down fresh_process Sample.week)))
     = false.
Proof. split; reflexivity. Qed.

(* ------------------------------------------------------------------ *)
(** ** Events: a user without purchases *)

Lemma truthy_nonempty (s : string) : s <> "" -> Str.truthy s = true.
Proof. destruct s; [congruence | reflexivity]. Qed.

Lemma user_purchase_query_no_match user_id tbl :
  filter (purchase_where user_id) (events_flatten tbl) = [] ->
  user_purchase_query user_id tbl = [].
Proof. intros H. unfold user_purchase_query. now rewrite H. Qed.

(** The path the script means to take. A user id that has been entered,
    that holds neither a quote nor a backslash, and for which the WHERE
    clause keeps no row: on a connection that answers the query returns
    the empty table, and the view shows the warning and nothing else. *)
Theorem unknown_user_not_found engine w i :
  query_fault w = None ->
  user_id i <> "" ->
  sql_literal_safe (user_id i) = true ->
  filter (purchase_where (user_id i)) (events_flatten (EVENTS w)) = [] ->
  fetch_user_purchases (Some engine) w (user_id i) = Returns []
  /\ events (Some engine) w i
     = ([ (st.tab2, st.header "Events");
          (st.tab2, st.text_input "Enter User ID" (user_id i));
          (st.tab2, st.warning "No purchase data found for this user ID.") ],
        Returns tt).
Proof.
  intros Hw Hid Hsafe Hnone.
  assert (Hq : fetch_user_purchases (Some engine) w (user_id i) = Returns []).
  { unfold fetch_user_purchases, read_sql. rewrite Hw, Hsafe.
    now rewrite user_purchase_query_no_match. }
  split; [exact Hq|].
  unfold events, call. rewrite (truthy_nonempty _ Hid), Hq. reflexivity.
Qed.

Lemma unknown_user_not_found_witness :
  query_fault Sample.warehouse = None
  /\ user_id Sample.stranger <> ""
  /\ sql_literal_safe (user_id Sample.stranger) = true
  /\ filter (purchase_where (user_id Sample.stranger))
       (events_flatten (EVENTS Sample.warehouse)) = []
  /\ fetch_user_purchases (Some Sample.engine) Sample.warehouse
       (user_id Sample.stranger) = Returns [].
Proof.
  split; [reflexivity|]. split; [discriminate|].
  split; [reflexivity|]. split; [reflexivity|].
  apply (unknown_user_not_found Sample.engine Sample.warehouse Sample.stranger);
    [reflexivity | discriminate | reflexivity | reflexivity].
Defined.


(** C7. The user id [o'brien] matches no row of the sample table, yet the
    quote it holds closes the literal of line 131 after [o]: the statement
    sent compares the uuid with [o] and goes on with [brien' AND ...],
    which is not the statement of the script. The embedding gives the
    query no result there, and so not the empty result of the claim. *)
Theorem quoted_user_id_cuts_literal :
  filter (purchase_where "o'brien") (events_flatten (EVENTS Sample.warehouse)) = []
  /\ events_query_text "o'brien"
     = (events_query_prefix ++ "o'brien" ++ events_query_suffix)%string
  /\ sql_string_literal ("o'brien" ++ events_query_suffix)
     = Returns ("o", ("brien" ++ events_query_suffix)%string)
  /\ fetch_user_purchases (Some Sample.engine) Sample.warehouse "o'brien"
     = Unmodelled.
Proof. repeat split. Qed.

(* ------------------------------------------------------------------ *)
(** ** Events: a payload that is not JSON *)

Example loads_object :
  Json.loads (Json.doc "{'iap_price': 4.99, 'sku': 'gems', 'tags': [1, null]}")
  = Returns (JObject [ ("iap_price", JNumber "4.99"); ("sku", JString "gems");
                       ("tags", JArray [JNumber "1"; JNull]) ]).
Proof. reflexivity. Qed.

(** A key written twice keeps its first place and its last value. *)
Example loads_repeated_key :
  Json.loads (Json.doc "{'a': 1, 'b': 2, 'a': 3}")
  = Returns (JObject [("a", JNumber "3"); ("b", JNumber "2")]).
Proof. reflexivity. Qed.

Example loads_truncated :
  exists m, Json.loads (Json.doc "{'iap_price': 0.99") = Raises (JSONDecodeError m).
Proof. eexists. reflexivity. Qed.

Example loads_trailing_comma :
  exists m, Json.loads (Json.doc "{'iap_price': 0.99,}") = Raises (JSONDecodeError m).
Proof. eexists. reflexivity. Qed.

(** An empty or absent payload is the empty object, without a call of
    [json.loads]. *)
Example purchase_details_empty :
  purchase_details (Some "") = Returns (JObject [])
  /\ purchase_details None = Returns (JObject []).
Proof. split; reflexivity. Qed.

Lemma loads_cases (s : string) :
  (exists v, Json.loads s = Returns v)
  \/ (exists m, Json.loads s = Raises (JSONDecodeError m)).
Proof.
  unfold Json.loads.
  destruct (Json.scan_once _ _) as [[v r]|]; [|right; eauto].
  destruct (Json.skip_ws r); [left | right]; eauto.
Qed.

Lemma purchase_details_cases (x : option string) :
  (exists v, purchase_details x = Returns v)
  \/ (exists m, purchase_details x = Raises (JSONDecodeError m)).
Proof.
  destruct x as [s|]; simpl; [|left; eauto].
  destruct (Str.truthy s); [apply loads_cases | left; eauto].
Qed.

(** Decoding the payloads of a table stops at the first one that is not
    JSON. *)
Lemma decode_raises (results : list UserPurchaseRow) r m :
  In r results ->
  purchase_details (purchase_data r) = Raises (JSONDecodeError m) ->
  exists m', omap (fun r => purchase_details (purchase_data r)) results
             = Raises (JSONDecodeError m').
Proof.
  induction results as [|r0 results IH]; simpl; [tauto|].
  intros Hin Hr.
  destruct (purchase_details_cases (purchase_data r0)) as [[v E]|[m0 E]];
    rewrite E; simpl; [|eauto].
  destruct Hin as [->|Hin]; [congruence|].
  destruct (IH Hin Hr) as [m' E']. rewrite E'. simpl. eauto.
Qed.

Lemma flatten_raises (results : list UserPurchaseRow) r s m :
  In r results ->
  purchase_data r = Some s ->
  Str.truthy s = true ->
  Json.loads s = Raises (JSONDecodeError m) ->
  exists m', flatten results = Raises (JSONDecodeError m').
Proof.
  intros Hin Hs Ht Hl.
  destruct (decode_raises results r m Hin) as [m' E].
  - unfold purchase_details. now rewrite Hs, Ht.
  - exists m'. unfold flatten, details_frame. now rewrite E.
Qed.

(** Against C3 as stated: the second payload of Gil's rows is cut short,
    and the transform of both rows raises. *)
Lemma malformed_payload_aborts_flatten :
  map purchase_data Sample.gil_rows
  = [ Some (Json.doc "{'sku': 'coins'}"); Some (Json.doc "{'iap_price': 0.99") ]
  /\ (exists m, flatten Sample.gil_rows = Raises (JSONDecodeError m))
  /\ ~ (exists df, flatten Sample.gil_rows = Returns df).
Proof.
  split; [reflexivity|]. split; [eexists; reflexivity|].
  intros [df H]. vm_compute in H. discriminate.
Qed.

(** C3, as the script has it. When a payload of the query result is a
    non-empty string that [json.loads] refuses, the transform raises that
    error for the whole table; the Events view catches it and shows it
    under the heading and the summary chart, and shows no detail table. *)
Theorem malformed_payload_shown_as_error engine w i results r s m :
  Str.truthy (user_id i) = true ->
  fetch_user_purchases engine w (user_id i) = Returns results ->
  In r results ->
  purchase_data r = Some s ->
  Str.truthy s = true ->
  Json.loads s = Raises (JSONDecodeError m) ->
  exists m',
    flatten results = Raises (JSONDecodeError m')
    /\ events engine w i
       = ([ (st.tab2, st.header "Events");
            (st.tab2, st.text_input "Enter User ID" (user_id i));
            (st.tab2, st.subheader ("Purchase Data for User: "
                                    ++ first_user_name results));
            (st.tab2, st.plotly_chart
               (px.bar (purchase_frame results) "purchase_date"
                       "daily_purchase_amount"
                       ("Daily Purchase Amounts for " ++ first_user_name results)));
            (st.tab2, st.error ("Error executing query: " ++ m')) ],
          Returns tt).
Proof.
  intros Hid Hq Hin Hs Ht Hl.
  destruct (flatten_raises results r s m Hin Hs Ht Hl) as [m' E].
  exists m'. split; [exact E|].
  destruct results as [|r0 results]; [destruct Hin|].
  unfold events. rewrite Hid, Hq, bind_call_returns.
  unfold show_purchases. cbn [empty negb]. rewrite E. reflexivity.
Qed.

Lemma malformed_payload_shown_as_error_witness :
  exists m',
    flatten Sample.gil_rows = Raises (JSONDecodeError m')
    /\ events (Some Sample.engine) Sample.warehouse Sample.ask_gil
       = ([ (st.tab2, st.header "Events");
            (st.tab2, st.text_input "Enter User ID" "u9");
            (st.tab2, st.subheader "Purchase Data for User: Gil");
            (st.tab2, st.plotly_chart
               (px.bar (purchase_frame Sample.gil_rows) "purchase_date"
                       "daily_purchase_amount"
                       "Daily Purchase Amounts for Gil"));
            (st.tab2, st.error ("Error executing query: " ++ m')) ],
          Returns tt).
Proof.
  apply (malformed_payload_shown_as_error (Some Sample.engine) Sample.warehouse
           Sample.ask_gil Sample.gil_rows
           {| purchase_date := Some (Sample.day_of 2024 5 5);
              user_name := Some "Gil";
              purchase_data := Some (Json.doc "{'iap_price': 0.99");
              daily_purchase_amount := Some (99 # 100) |}
           (Json.doc "{'iap_price': 0.99") "Expecting value");
    try reflexivity.
  right. left. reflexivity.
Defined.

(* ------------------------------------------------------------------ *)
(** ** Lists, dictionaries and calls in sequence *)

Lemma filter_filter {A} (p q : A -> bool) (l : list A) :
  filter p (filter q l) = filter (fun y => q y && p y) l.
Proof.
  induction l as [|x l IH]; simpl; [reflexivity|].
  destruct (q x); simpl; [destruct (p x)|]; now rewrite IH.
Qed.

Lemma mem_In (c : string) (l : list string) : Str.mem c l = true <-> In c l.
Proof.
  unfold Str.mem. rewrite existsb_exists. split.
  - intros (x & Hx & E). apply String.eqb_eq in E. now subst.
  - intros H. exists c. split; [exact H | apply String.eqb_refl].
Qed.

Lemma mem_false (c : string) (l : list string) : Str.mem c l = false <-> ~ In c l.
Proof.
  rewrite <- mem_In. destruct (Str.mem c l); split; congruence.
Qed.

Lemma distinct_from_filter (seen l : list string) :
  distinct_from seen l
  = filter (fun y => negb (Str.mem y seen)) (first_seen l).
Proof.
  revert seen. induction l as [|x l IH]; intros seen; simpl; [reflexivity|].
  destruct (Str.mem x seen) eqn:E; simpl; rewrite IH, filter_filter.
  - apply filter_ext_in. intros y _.
    destruct (String.eqb_spec x y) as [<-|]; simpl; [now rewrite E | reflexivity].
  - f_equal. apply filter_ext. intros y. unfold Str.mem. simpl.
    rewrite (String.eqb_sym y x). now destruct (String.eqb x y).
Qed.

(** The column order of pandas is the first-seen order. *)
Lemma distinct_first_seen (l : list string) : distinct l = first_seen l.
Proof.
  unfold distinct. rewrite distinct_from_filter.
  rewrite <- (filter_ext (fun _ => true)) by reflexivity.
  induction (first_seen l) as [|x l' IH]; simpl; congruence.
Qed.

Lemma first_seen_In (c : string) (l : list string) :
  In c (first_seen l) <-> In c l.
Proof.
  induction l as [|x l IH]; simpl; [tauto|].
  rewrite filter_In, IH.
  destruct (String.eqb_spec x c) as [->|Hne]; simpl; [tauto|].
  intuition congruence.
Qed.

Lemma first_seen_NoDup (l : list string) : NoDup (first_seen l).
Proof.
  induction l as [|x l IH]; simpl; constructor.
  - rewrite filter_In, String.eqb_refl. simpl. intros [_ H]. discriminate.
  - now apply NoDup_filter.
Qed.

Lemma dict_get_set_same {V} (k : string) (v : V) (d : dict V) :
  dict_get k (dict_set k v d) = Some v.
Proof.
  induction d as [|[k' v'] d IH]; simpl.
  - now rewrite String.eqb_refl.
  - destruct (String.eqb k k') eqn:E; simpl; rewrite E; [reflexivity | exact IH].
Qed.

Lemma dict_get_set_other {V} (k k' : string) (v : V) (d : dict V) :
  k' <> k -> dict_get k' (dict_set k v d) = dict_get k' d.
Proof.
  intros Hne. induction d as [|[k0 v0] d IH]; simpl.
  - now rewrite (proj2 (String.eqb_neq k' k)).
  - destruct (String.eqb_spec k k0) as [->|]; simpl.
    + now rewrite (proj2 (String.eqb_neq k' k0)).
    + now rewrite IH.
Qed.

Lemma keys_dict_set {V} (k : string) (v : V) (d : dict V) :
  keys (dict_set k v d) = if Str.mem k (keys d) then keys d else keys d ++ [k].
Proof.
  unfold keys, Str.mem. induction d as [|[k' v'] d IH]; simpl; [reflexivity|].
  destruct (String.eqb k k'); simpl; [reflexivity|].
  rewrite IH. now destruct (existsb _ _).
Qed.

(** Setting a column changes the other column names in no way. *)
Lemma keys_dict_set_others {V} (p : string -> bool) (k : string) (v : V) (d : dict V) :
  p k = false -> filter p (keys (dict_set k v d)) = filter p (keys d).
Proof.
  intros Hk. rewrite keys_dict_set. destruct (Str.mem k (keys d)); [reflexivity|].
  rewrite filter_app. simpl. rewrite Hk. apply app_nil_r.
Qed.

Lemma dict_get_tabulate {V} (g : string -> V) (c : string) (l : list string) :
  In c l -> dict_get c (map (fun c => (c, g c)) l) = Some (g c).
Proof.
  induction l as [|x l IH]; simpl; [tauto|].
  destruct (String.eqb_spec c x) as [->|Hne]; [reflexivity|].
  intros [->|H]; [congruence | now apply IH].
Qed.

Lemma omap_returns {A B} (f : A -> outcome B) (g : A -> B) (l : list A) :
  (forall x, In x l -> f x = Returns (g x)) -> omap f l = Returns (map g l).
Proof.
  induction l as [|x l IH]; simpl; intros H; [reflexivity|].
  rewrite (H x) by now left. simpl. rewrite IH; [reflexivity|].
  intros y Hy. apply H. now right.
Qed.

Lemma omap_map {A B C} (f : B -> outcome C) (h : A -> B) (l : list A) :
  omap f (map h l) = omap (fun x => f (h x)) l.
Proof.
  induction l as [|x l IH]; simpl; [reflexivity|]. now rewrite IH.
Qed.

(* ------------------------------------------------------------------ *)
(** ** The detail table *)

Lemma decode_returns results records :
  Forall2 decodes_to results records ->
  omap (fun r => purchase_details (purchase_data r)) results
  = Returns (map JObject records).
Proof.
  induction 1 as [|r d results records Hr _ IH]; simpl; [reflexivity|].
  unfold decodes_to in Hr. now rewrite Hr, IH.
Qed.

Lemma DataFrame_of_dicts (records : list (dict json)) :
  DataFrame_of_list (map JObject records) = Returns (from_records records).
Proof.
  destruct records as [|d records]; [reflexivity|].
  change (DataFrame_of_list (map JObject (d :: records)))
    with (obind (omap as_dict (map JObject (d :: records)))
                (fun rs => Returns (from_records rs))).
  rewrite omap_map, (omap_returns _ (fun d => d)) by reflexivity.
  now rewrite map_id.
Qed.

Lemma details_frame_returns results records :
  Forall2 decodes_to results records ->
  details_frame results = Returns (from_records records).
Proof.
  intros H. unfold details_frame. rewrite (decode_returns _ _ H). simpl obind.
  apply DataFrame_of_dicts.
Qed.

Lemma from_records_columns (records : list (dict json)) :
  columns (from_records records) = first_seen (flat_map keys records).
Proof.
  unfold columns, keys, from_records. simpl.
  rewrite map_map. simpl. rewrite map_id. apply distinct_first_seen.
Qed.

Lemma from_records_column (records : list (dict json)) (c : string) :
  In c (first_seen (flat_map keys records)) ->
  dict_get c (series (from_records records))
  = Some (map (fun d => cell_of (dict_get c d)) records).
Proof.
  intros H. unfold from_records. simpl. rewrite distinct_first_seen.
  now apply (dict_get_tabulate (fun c => map (fun d => cell_of (dict_get c d)) records)).
Qed.

Lemma format_dates_returns (results : list UserPurchaseRow) :
  dates_in_bounds results ->
  omap format_date (map (fun r => date_cell (purchase_date r)) results)
  = Returns (map (fun r => formatted_date (purchase_date r)) results).
Proof.
  intros Hb. rewrite omap_map. apply omap_returns.
  intros r Hr. specialize (Hb r).
  destruct (purchase_date r) as [d|]; simpl; [|reflexivity].
  now rewrite (Hb d Hr eq_refl).
Qed.

Lemma not_fixed_neq (c : string) :
  not_fixed c = true -> c <> "purchase_date" /\ c <> "user_name".
Proof.
  unfold not_fixed. rewrite negb_true_iff, mem_false. simpl.
  intros H. split; intros ->; apply H; auto.
Qed.

(** The detail table, written out: the date and the user name of the
    query result first, then the columns of the payloads under the other
    names. *)
Lemma add_fixed_columns_from_records results records :
  dates_in_bounds results ->
  add_fixed_columns results (from_records records)
  = Returns
      {| index := List.length records;
         series :=
           ("purchase_date", map (fun r => formatted_date (purchase_date r)) results)
           :: ("user_name", map (fun r => str_cell (user_name r)) results)
           :: map (fun c => (c, map (fun d => cell_of (dict_get c d)) records))
                  (filter not_fixed (first_seen (flat_map keys records))) |}.
Proof.
  intros Hb. unfold add_fixed_columns, columns.
  cbn [setitem series index].
  set (D := map (fun r => date_cell (purchase_date r)) results).
  set (N := map (fun r => str_cell (user_name r)) results).
  set (S0 := series (from_records records)).
  rewrite !keys_dict_set_others by reflexivity.
  change (keys S0) with (columns (from_records records)).
  rewrite from_records_columns.
  set (F := filter not_fixed (first_seen (flat_map keys records))).
  set (col := fun c => map (fun d => cell_of (dict_get c d)) records).
  assert (HF : forall c, In c F ->
             dict_get c (dict_set "user_name" N (dict_set "purchase_date" D S0))
             = Some (col c)).
  { intros c Hc. apply filter_In in Hc. destruct Hc as [Hc Hn].
    apply not_fixed_neq in Hn. destruct Hn as [Hd Hu].
    rewrite !dict_get_set_other by assumption.
    now apply from_records_column. }
  unfold getitem. cbn [setitem series index]. unfold fixed_columns at 1.
  cbn [app omap].
  rewrite dict_get_set_other by discriminate.
  rewrite !dict_get_set_same. cbn [obind].
  rewrite (omap_returns _ (fun c => (c, col c))).
  2:{ intros c Hc. unfold S0 in HF. now rewrite (HF c Hc). }
  cbn [obind series index dict_get]. rewrite String.eqb_refl.
  unfold D. rewrite (format_dates_returns _ Hb). cbn [obind].
  unfold setitem. cbn [series index dict_set]. rewrite String.eqb_refl.
  reflexivity.
Qed.

Lemma flatten_returns results records :
  Forall2 decodes_to results records ->
  dates_in_bounds results ->
  flatten results
  = Returns
      {| index := List.length records;
         series :=
           ("purchase_date", map (fun r => formatted_date (purchase_date r)) results)
           :: ("user_name", map (fun r => str_cell (user_name r)) results)
           :: map (fun c => (c, map (fun d => cell_of (dict_get c d)) records))
                  (filter not_fixed (first_seen (flat_map keys records))) |}.
Proof.
  intros Hd Hb. unfold flatten. rewrite (details_frame_returns _ _ Hd).
  cbn [obind]. now apply add_fixed_columns_from_records.
Qed.

Lemma dict_get_missing {V} (k : string) (d : dict V) :
  ~ In k (keys d) -> dict_get k d = None.
Proof.
  induction d as [|[k' v] d IH]; simpl; intros H; [reflexivity|].
  destruct (String.eqb_spec k k') as [->|Hne]; [exfalso; apply H; now left|].
  apply IH. intros Hin. apply H. now right.
Qed.

(** Against C4 as stated, on Dana's two purchases. The keys of the two
    payloads are, in the order they are first seen, [iap_price],
    [user_name], [Total_Amount], [sku]; the columns of the detail table
    that stem from the payloads are [iap_price], [Total_Amount], [sku];
    and the second row, whose payload has no key [user_name], has the
    name ["Dana"] in the column [user_name], not an empty cell. *)
Lemma flattened_columns_not_the_union :
  exists df,
    Forall2 decodes_to Sample.dana_rows Sample.dana_records
    /\ flatten Sample.dana_rows = Returns df
    /\ first_seen (flat_map keys Sample.dana_records)
       = ["iap_price"; "user_name"; "Total_Amount"; "sku"]
    /\ filter not_fixed (columns df) = ["iap_price"; "Total_Amount"; "sku"]
    /\ filter not_fixed (columns df)
       <> first_seen (flat_map keys Sample.dana_records)
    /\ nth_error (map (dict_get "user_name") Sample.dana_records) 1 = Some None
    /\ cell_at df 1 "user_name" = Some (Obj (JString "Dana")).
Proof.
  eexists. split; [repeat constructor|]. split; [reflexivity|].
  split; [reflexivity|]. split; [reflexivity|].
  split; [discriminate|]. split; reflexivity.
Qed.

(** C4, as the script has it. When every payload decodes to an object
    (and the dates can be written out), the columns of the detail table
    after [purchase_date] and [user_name] are the keys of all the payloads
    other than these two names, each once, in the order they are first
    seen; and a row whose payload has no such key has [NaN] in its column.
    A key named [purchase_date] or [user_name] gives no column of its
    own. *)
Theorem flattened_payload_columns results records :
  Forall2 decodes_to results records ->
  dates_in_bounds results ->
  exists df,
    flatten results = Returns df
    /\ columns df
       = fixed_columns
         ++ filter not_fixed (first_seen (flat_map keys records))
    /\ NoDup (filter not_fixed (first_seen (flat_map keys records)))
    /\ (forall c, In c (filter not_fixed (first_seen (flat_map keys records)))
          <-> not_fixed c = true /\ exists d, In d records /\ In c (keys d))
    /\ (forall n d c,
          nth_error records n = Some d ->
          In c (filter not_fixed (first_seen (flat_map keys records))) ->
          ~ In c (keys d) ->
          cell_at df n c = Some NaN).
Proof.
  intros Hd Hb. eexists. split; [exact (flatten_returns _ _ Hd Hb)|].
  split.
  { unfold columns, keys. cbn [series]. rewrite !map_cons, map_map. cbn [fst].
    now rewrite map_id. }
  split; [apply NoDup_filter, first_seen_NoDup|]. split.
  - intros c. rewrite filter_In, first_seen_In, in_flat_map. tauto.
  - intros n d c Hn Hc Hmiss.
    destruct (not_fixed_neq c (proj2 (proj1 (filter_In _ _ _) Hc))) as [H1 H2].
    unfold cell_at. cbn [series dict_get].
    rewrite (proj2 (String.eqb_neq c "purchase_date") H1).
    rewrite (proj2 (String.eqb_neq c "user_name") H2).
    rewrite (dict_get_tabulate
               (fun c => map (fun d => cell_of (dict_get c d)) records) c _ Hc).
    rewrite nth_error_map, Hn. cbn [option_map].
    now rewrite (dict_get_missing _ _ Hmiss).
Qed.

Lemma flattened_payload_columns_witness :
  Forall2 decodes_to Sample.dana_rows Sample.dana_records
  /\ dates_in_bounds Sample.dana_rows
  /\ exists df,
       flatten Sample.dana_rows = Returns df
       /\ columns df
          = fixed_columns
            ++ filter not_fixed (first_seen (flat_map keys Sample.dana_records)).
Proof.
  assert (H : Forall2 decodes_to Sample.dana_rows Sample.dana_records).
  { repeat constructor. }
  assert (B : dates_in_bounds Sample.dana_rows).
  { intros r d [<-|[<-|[]]] [= <-]; reflexivity. }
  split; [exact H|]. split; [exact B|].
  destruct (flattened_payload_columns _ _ H B) as (df & E & Hc & _).
  exists df. split; [exact E | exact Hc].
Defined.

(** The detail table of Dana's two purchases: the payload of the first
    row has a key [user_name], whose value ["x"] is nowhere in the table. *)
Example flatten_dana :
  flatten Sample.dana_rows
  = Returns
      {| index := 2;
         series :=
           [ ("purchase_date", [Obj (JString "2024-05-01"); Obj (JString "2024-05-02")]);
             ("user_name", [Obj (JString "Dana"); Obj (JString "Dana")]);
             ("iap_price", [Obj (JNumber "1.99"); Obj (JNumber "4.99")]);
             ("Total_Amount", [Obj (JNumber "3"); NaN]);
             ("sku", [NaN; Obj (JString "gems")]) ] |}.
Proof. reflexivity. Qed.

(** C10. In the detail table the columns [purchase_date] and [user_name]
    hold the values of the query result, whatever the payloads hold under
    these two keys: each name is a column once, a payload value under it
    is in no cell of the table, and the other columns are the other keys
    of the payloads. *)
Theorem fixed_columns_overwrite_payload results records :
  Forall2 decodes_to results records ->
  dates_in_bounds results ->
  exists df,
    flatten results = Returns df
    /\ columns df
       = "purchase_date" :: "user_name"
         :: filter not_fixed (first_seen (flat_map keys records))
    /\ NoDup (columns df)
    /\ dict_get "purchase_date" (series df)
       = Some (map (fun r => formatted_date (purchase_date r)) results)
    /\ dict_get "user_name" (series df)
       = Some (map (fun r => str_cell (user_name r)) results)
    /\ (forall c, In c (columns df) -> not_fixed c = true ->
          dict_get c (series df)
          = Some (map (fun d => cell_of (dict_get c d)) records)).
Proof.
  intros Hd Hb. eexists. split; [exact (flatten_returns _ _ Hd Hb)|].
  assert (HF : forall c,
            In c (filter not_fixed (first_seen (flat_map keys records))) ->
            c <> "purchase_date" /\ c <> "user_name").
  { intros c Hc. apply filter_In in Hc. now apply not_fixed_neq. }
  assert (HN : NoDup (filter not_fixed (first_seen (flat_map keys records)))).
  { apply NoDup_filter, first_seen_NoDup. }
  remember (filter not_fixed (first_seen (flat_map keys records))) as F eqn:EF.
  assert (Hcols : forall (g : string -> list cell),
            map fst (map (fun c => (c, g c)) F) = F).
  { intros g. rewrite map_map. apply map_id. }
  unfold columns, keys. cbn [series]. rewrite !map_cons, Hcols. cbn [fst].
  split; [reflexivity|]. split.
  - 
    constructor; [|constructor].
    + intros [H|H]; [discriminate | now apply HF in H].
    + intros H. now apply HF in H.
    + exact HN.
  - split; [reflexivity|]. split; [reflexivity|].
    intros c Hc Hn. destruct (not_fixed_neq c Hn) as [H1 H2].
    cbn [dict_get].
    rewrite (proj2 (String.eqb_neq c "purchase_date") H1).
    rewrite (proj2 (String.eqb_neq c "user_name") H2).
    apply (dict_get_tabulate (fun c => map (fun d => cell_of (dict_get c d)) records)).
    destruct Hc as [<-|[<-|Hc]]; [congruence | congruence | exact Hc].
Qed.

Lemma fixed_columns_overwrite_payload_witness :
  Forall2 decodes_to Sample.dana_rows
    [ [("iap_price", JNumber "1.99"); ("user_name", JString "x");
       ("Total_Amount", JNumber "3")];
      [("iap_price", JNumber "4.99"); ("sku", JString "gems")] ]
  /\ dates_in_bounds Sample.dana_rows
  /\ exists df,
       flatten Sample.dana_rows = Returns df
       /\ columns df
          = ["purchase_date"; "user_name"; "iap_price"; "Total_Amount"; "sku"]
       /\ dict_get "user_name" (series df)
          = Some [Obj (JString "Dana"); Obj (JString "Dana")].
Proof.
  assert (H : Forall2 decodes_to Sample.dana_rows
    [ [("iap_price", JNumber "1.99"); ("user_name", JString "x");
       ("Total_Amount", JNumber "3")];
      [("iap_price", JNumber "4.99"); ("sku", JString "gems")] ]).
  { repeat constructor. }
  assert (B : dates_in_bounds Sample.dana_rows).
  { intros r d [<-|[<-|[]]] [= <-]; reflexivity. }
  split; [exact H|]. split; [exact B|].
  destruct (fixed_columns_overwrite_payload _ _ H B)
    as (df & E & Hc & _ & _ & Hu & _).
  exists df. split; [exact E|]. split; [exact Hc | exact Hu].
Defined.

(* ------------------------------------------------------------------ *)
(** ** Column formats *)

Example price_column_names :
  map is_price_column ["iap_price"; "Total_AMOUNT"; "PriceTier"; "sku"; "user_name"]
  = [true; true; true; false; false].
Proof. reflexivity. Qed.

Example price_column_label :
  price_column "iap_price" = NumberColumn "Iap Price" "$.2f".
Proof. reflexivity. Qed.

Lemma column_config_fold (l : list string) (config : dict column_spec) (c : string) :
  dict_get c (fold_left (fun config col => dict_set col (price_column col) config)
                l config)
  = if Str.mem c l then Some (price_column c) else dict_get c config.
Proof.
  revert config. induction l as [|x l IH]; intros config; simpl; [reflexivity|].
  rewrite IH. unfold Str.mem. simpl.
  destruct (existsb (String.eqb c) l); [now rewrite orb_true_r|].
  rewrite orb_false_r.
  destruct (String.eqb_spec c x) as [->|Hne].
  - apply dict_get_set_same.
  - now apply dict_get_set_other.
Qed.

(** The entry of a column of the table in [column_config]: a number
    column with the price format when the lowered name holds "price" or
    "amount"; the label of the two fixed columns; nothing otherwise. *)
Lemma column_config_get (df : DataFrame) (c : string) :
  In c (columns df) ->
  dict_get c (column_config df)
  = if is_price_column c then Some (price_column c)
    else dict_get c [("purchase_date", Label "Date"); ("user_name", Label "User Name")].
Proof.
  intros Hc. unfold column_config. rewrite column_config_fold.
  destruct (is_price_column c) eqn:E.
  - now rewrite (proj2 (mem_In _ _)) by (apply filter_In; split; assumption).
  - rewrite (proj2 (mem_false _ _)); [reflexivity|].
    rewrite filter_In. intros [_ H]. congruence.
Qed.

(** C5. A column of the detail table whose lowered name holds "price" or
    "amount" is given a number column whose format is [$.2f], and no other
    column is given a number format. That format holds no conversion
    specification: the page shows the text [$.2f] for every number of the
    column, not the number with two decimals. *)
Theorem price_columns_format (df : DataFrame) (c : string) :
  In c (columns df) ->
  (is_price_column c = true ->
     dict_get c (column_config df)
     = Some (NumberColumn (Str.title (Str.replace "_" " " c)) "$.2f"))
  /\ (is_price_column c = false ->
        forall label format,
          dict_get c (column_config df) <> Some (NumberColumn label format))
  /\ sprintf_without_conversion price_format = Some "$.2f".
Proof.
  intros Hc. rewrite (column_config_get df c Hc). repeat split.
  - now intros ->.
  - intros -> label format. simpl.
    destruct (String.eqb c "purchase_date"); [discriminate|].
    destruct (String.eqb c "user_name"); discriminate.
Qed.

Lemma price_columns_format_witness :
  exists df,
    flatten Sample.dana_rows = Returns df
    /\ In "iap_price" (columns df)
    /\ dict_get "iap_price" (column_config df)
       = Some (NumberColumn "Iap Price" "$.2f")
    /\ dict_get "Total_Amount" (column_config df)
       = Some (NumberColumn "Total Amount" "$.2f")
    /\ dict_get "sku" (column_config df) = None.
Proof.
  eexists. split; [reflexivity|].
  split; [right; right; left; reflexivity|].
  split; [|split; reflexivity].
  apply (price_columns_format _ "iap_price"); [|reflexivity].
  right; right; left; reflexivity.
Defined.

(* ================================================================== *)
(** * Further properties *)

(* ------------------------------------------------------------------ *)
(** ** GROUP BY *)

Section GroupFacts.
Context {A K : Type} (eqb : K -> K -> bool) (key : A -> K).
Hypothesis eqb_eq : forall a b, eqb a b = true <-> a = b.

Lemma add_to_group_new (k : K) (a : A) (gs : list (K * list A)) :
  ~ In k (map fst gs) -> add_to_group eqb k a gs = gs ++ [(k, [a])].
Proof.
  induction gs as [|[k' m] gs IH]; simpl; intros H; [reflexivity|].
  destruct (eqb k k') eqn:E.
  - apply eqb_eq in E. subst k'. exfalso. apply H. now left.
  - f_equal. apply IH. intros Hin. apply H. now right.
Qed.

Lemma add_to_group_old (k : K) (a : A) (gs : list (K * list A)) :
  In k (map fst gs) ->
  exists g1 m g2,
    gs = g1 ++ (k, m) :: g2
    /\ add_to_group eqb k a gs = g1 ++ (k, m ++ [a]) :: g2.
Proof.
  induction gs as [|[k' m] gs IH]; simpl; intros H; [destruct H|].
  destruct (eqb k k') eqn:E.
  - apply eqb_eq in E. subst k'. now exists [], m, gs.
  - destruct H as [->|H].
    + assert (eqb k k = true) by now apply eqb_eq. congruence.
    + destruct (IH H) as (g1 & m0 & g2 & -> & ->).
      now exists ((k', m) :: g1), m0, g2.
Qed.

Lemma key_in_dec (k : K) (ks : list K) : In k ks \/ ~ In k ks.
Proof.
  destruct (existsb (eqb k) ks) eqn:E.
  - left. apply existsb_exists in E. destruct E as (x & Hx & E).
    apply eqb_eq in E. now subst.
  - right. intros H. apply not_true_iff_false in E. apply E.
    apply existsb_exists. exists k. split; [exact H | now apply eqb_eq].
Qed.

Lemma filter_snoc (f : A -> bool) (l : list A) (a : A) :
  filter f (l ++ [a]) = filter f l ++ (if f a then [a] else []).
Proof. rewrite filter_app. reflexivity. Qed.

(** One more row keeps the grouping. *)
Lemma grouped_step (l : list A) (gs : list (K * list A)) (a : A) :
  grouped eqb key l gs ->
  grouped eqb key (l ++ [a]) (add_to_group eqb (key a) a gs).
Proof.
  intros (Hnd & Hm & Hall).
  destruct (key_in_dec (key a) (map fst gs)) as [Hin|Hout].
  - destruct (add_to_group_old (key a) a gs Hin) as (g1 & m & g2 & Hgs & ->).
    subst gs.
    assert (Hkeys : map fst (g1 ++ (key a, m ++ [a]) :: g2)
                    = map fst (g1 ++ (key a, m) :: g2)).
    { now rewrite !map_app. }
    split; [now rewrite Hkeys|]. split.
    + intros k m' Hk. apply in_app_or in Hk. rewrite filter_snoc.
      assert (Hother : In (k, m') (g1 ++ g2) ->
                m' = filter (fun x => eqb (key x) k) l ++
                     (if eqb (key a) k then [a] else [])
                /\ m' <> []).
      { intros Hg.
        assert (Hg' : In (k, m') (g1 ++ (key a, m) :: g2)).
        { apply in_or_app. apply in_app_or in Hg. simpl. tauto. }
        destruct (Hm k m' Hg') as [-> Hne]. split; [|exact Hne].
        destruct (eqb (key a) k) eqn:E; [|now rewrite app_nil_r].
        apply eqb_eq in E. subst k. exfalso.
        rewrite map_app in Hnd. simpl in Hnd.
        apply NoDup_remove_2 in Hnd. apply Hnd. rewrite <- map_app.
        apply (in_map fst) in Hg. exact Hg. }
      destruct Hk as [Hk|[Hk|Hk]].
      * apply Hother, in_or_app. now left.
      * injection Hk as <- <-.
        destruct (Hm (key a) m) as [-> _]; [apply in_or_app; right; now left|].
        rewrite (proj2 (eqb_eq (key a) (key a)) eq_refl).
        split; [reflexivity|]. now destruct (filter _ l).
      * apply Hother, in_or_app. now right.
    + intros x Hx. rewrite Hkeys. apply in_app_or in Hx.
      destruct Hx as [Hx|[<-|[]]]; [now apply Hall | exact Hin].
  - rewrite (add_to_group_new _ _ _ Hout). split; [|split].
    + rewrite map_app. simpl. apply NoDup_app; [exact Hnd | repeat constructor; auto |].
      intros k Hk [<-|[]]. now apply Hout.
    + intros k m Hk. apply in_app_or in Hk. rewrite filter_snoc.
      destruct Hk as [Hk|[Hk|[]]].
      * destruct (Hm k m Hk) as [-> Hne]. split; [|exact Hne].
        destruct (eqb (key a) k) eqn:E; [|now rewrite app_nil_r].
        apply eqb_eq in E. subst k. exfalso. apply Hout.
        apply (in_map fst) in Hk. exact Hk.
      * injection Hk as <- <-.
        rewrite (proj2 (eqb_eq (key a) (key a)) eq_refl).
        rewrite filter_nothing; [split; [reflexivity | discriminate]|].
        intros x Hx. apply not_true_iff_false. intros E. apply eqb_eq in E.
        apply Hout. rewrite <- E. now apply Hall.
    + intros x Hx. rewrite map_app. apply in_or_app. apply in_app_or in Hx.
      destruct Hx as [Hx|[<-|[]]]; [left; now apply Hall | right; now left].
Qed.

Lemma grouped_fold (l l0 : list A) (gs : list (K * list A)) :
  grouped eqb key l0 gs ->
  grouped eqb key (l0 ++ l)
    (fold_left (fun gs a => add_to_group eqb (key a) a gs) l gs).
Proof.
  revert l0 gs. induction l as [|a l IH]; intros l0 gs H; simpl.
  - now rewrite app_nil_r.
  - replace (l0 ++ a :: l) with ((l0 ++ [a]) ++ l) by now rewrite <- app_assoc.
    apply IH. now apply grouped_step.
Qed.

(** [group_by] groups. *)
Lemma group_by_grouped (l : list A) : grouped eqb key l (group_by eqb key l).
Proof.
  apply (grouped_fold l [] []). split; [constructor|]. split.
  - intros k m [].
  - intros x [].
Qed.

(** The keys of the groups are the keys of the rows. *)
Lemma group_by_keys (l : list A) (k : K) :
  In k (map fst (group_by eqb key l)) <-> exists x, In x l /\ key x = k.
Proof.
  destruct (group_by_grouped l) as (_ & Hm & Hall). split.
  - intros H. apply in_map_iff in H. destruct H as ([k' m] & <- & H).
    destruct (Hm k' m H) as [-> Hne]. simpl.
    destruct (filter _ l) as [|x r] eqn:E; [congruence|].
    assert (Hx : In x (filter (fun x => eqb (key x) k') l)) by (rewrite E; now left).
    apply filter_In in Hx. destruct Hx as [Hx Hk]. apply eqb_eq in Hk. eauto.
  - intros (x & Hx & <-). now apply Hall.
Qed.

End GroupFacts.

(* ------------------------------------------------------------------ *)
(** ** General Statistics: what the rows of [load_data] mean *)

Lemma option_string_eqb_eq (a b : option string) :
  option_eqb String.eqb a b = true <-> a = b.
Proof.
  destruct a as [x|], b as [y|]; simpl; try (split; congruence).
  rewrite String.eqb_eq. split; congruence.
Qed.

Lemma city_stats_query_groups start_date end_date tbl :
  city_stats_query start_date end_date tbl
  = firstn 10 (sort_by users_desc (city_stats_groups start_date end_date tbl)).
Proof. reflexivity. Qed.

Lemma city_stats_groups_cities start_date end_date tbl :
  map city (city_stats_groups start_date end_date tbl)
  = map fst (group_by (option_eqb String.eqb) GEO_CITY
               (filter (city_where start_date end_date) tbl)).
Proof. unfold city_stats_groups. rewrite map_map. reflexivity. Qed.

Lemma NoDup_firstn {A} (n : nat) (l : list A) : NoDup l -> NoDup (firstn n l).
Proof.
  intros H. rewrite <- (firstn_skipn n l) in H. now apply NoDup_app_remove_r in H.
Qed.

Lemma In_firstn {A} (n : nat) (l : list A) (x : A) : In x (firstn n l) -> In x l.
Proof.
  intros H. rewrite <- (firstn_skipn n l). apply in_or_app. now left.
Qed.

(** X1. No city is in two rows of a table that [load_data] returns: the
    statement groups by city. *)
Theorem load_data_cities_distinct engine w start_date end_date data :
  load_data engine w start_date end_date = Returns data ->
  NoDup (map city data).
Proof.
  intros H. apply load_data_returns_query in H. subst data.
  rewrite city_stats_query_groups, <- firstn_map. apply NoDup_firstn.
  eapply Permutation_NoDup.
  - apply Permutation_map, sort_by_perm.
  - rewrite city_stats_groups_cities.
    apply (group_by_grouped _ _ option_string_eqb_eq).
Qed.

Lemma load_data_cities_distinct_witness :
  load_data (Some Sample.engine) Sample.warehouse
    (Sample.day_of 2024 5 1) (Sample.day_of 2024 5 7) = Returns Sample.week_stats
  /\ NoDup (map city Sample.week_stats).
Proof.
  split; [reflexivity|].
  apply (load_data_cities_distinct (Some Sample.engine) Sample.warehouse
           (Sample.day_of 2024 5 1) (Sample.day_of 2024 5 7)).
  reflexivity.
Defined.

(** X2. A row of a table that [load_data] returns counts the events of
    its city that lie in the date range and have a user context, and
    there is such an event: [number_of_users] is the number of distinct
    non-null uuids among them, [number_of_purchases] the number of them
    named [in_app_purchase]. *)
Theorem load_data_row_counts engine w start_date end_date data r :
  load_data engine w start_date end_date = Returns data ->
  In r data ->
  let evs := events_of_city start_date end_date (EVENTS w) (city r) in
  evs <> []
  /\ number_of_users r
     = Z.of_nat (List.length (distinct (non_null (map user_uuid evs))))
  /\ number_of_purchases r
     = Z.of_nat (List.length (filter is_purchase evs)).
Proof.
  intros H Hr. apply load_data_returns_query in H. subst data.
  rewrite city_stats_query_groups in Hr. apply In_firstn in Hr.
  apply (Permutation_in _ (Permutation_sym (sort_by_perm _ _))) in Hr.
  unfold city_stats_groups in Hr. apply in_map_iff in Hr.
  destruct Hr as ([c m] & <- & Hg).
  destruct (group_by_grouped _ GEO_CITY option_string_eqb_eq
              (filter (city_where start_date end_date) (EVENTS w)))
    as (_ & Hm & _).
  destruct (Hm c m Hg) as [Hfilter Hne].
  unfold events_of_city. simpl. rewrite <- Hfilter. now repeat split.
Qed.

Lemma load_data_row_counts_witness :
  load_data (Some Sample.engine) Sample.warehouse
    (Sample.day_of 2024 5 1) (Sample.day_of 2024 5 7) = Returns Sample.week_stats
  /\ number_of_purchases
       {| city := Some "Haifa"; number_of_users := 2; number_of_purchases := 3 |}
     = Z.of_nat (List.length (filter is_purchase
         (events_of_city (Sample.day_of 2024 5 1) (Sample.day_of 2024 5 7)
            (EVENTS Sample.warehouse) (Some "Haifa")))).
Proof.
  split; [reflexivity|].
  apply (load_data_row_counts (Some Sample.engine) Sample.warehouse
           (Sample.day_of 2024 5 1) (Sample.day_of 2024 5 7) Sample.week_stats).
  - reflexivity.
  - right. left. reflexivity.
Defined.

Lemma StronglySorted_app_order {A} (R : A -> A -> Prop) (l1 l2 : list A) :
  StronglySorted R (l1 ++ l2) ->
  forall x y, In x l1 -> In y l2 -> R x y.
Proof.
  induction l1 as [|a l1 IH]; simpl; intros H x y Hx Hy; [destruct Hx|].
  apply StronglySorted_inv in H. destruct H as [Hs Hall].
  destruct Hx as [<-|Hx].
  - rewrite Forall_forall in Hall. apply Hall, in_or_app. now right.
  - now apply (IH Hs).
Qed.

(** X3. The rows that [load_data] returns are rows of the grouped table,
    and the rows it leaves out have no more users than any row it
    returns; it leaves none out when it returns fewer than 10. *)
Theorem load_data_keeps_the_largest engine w start_date end_date data :
  load_data engine w start_date end_date = Returns data ->
  exists rest,
    Permutation (data ++ rest)
      (city_stats_groups start_date end_date (EVENTS w))
    /\ (forall r r', In r data -> In r' rest ->
          (number_of_users r' <= number_of_users r)%Z)
    /\ ((List.length data < 10)%nat -> rest = []).
Proof.
  intros H. apply load_data_returns_query in H. subst data.
  rewrite city_stats_query_groups.
  set (sorted := sort_by users_desc (city_stats_groups start_date end_date (EVENTS w))).
  exists (skipn 10 sorted). split; [|split].
  - rewrite firstn_skipn. apply Permutation_sym, sort_by_perm.
  - intros r r' Hr Hr'.
    assert (Hs : StronglySorted (fun a b => users_desc a b = true) sorted).
    { apply Sorted_StronglySorted.
      - intros a b c. unfold users_desc. lia.
      - apply sort_by_sorted, users_desc_total. }
    rewrite <- (firstn_skipn 10 sorted) in Hs.
    pose proof (StronglySorted_app_order _ _ _ Hs r r' Hr Hr') as Hle.
    unfold users_desc in Hle. lia.
  - intros Hlen. apply skipn_all2.
    rewrite length_firstn in Hlen. lia.
Qed.

Lemma load_data_keeps_the_largest_witness :
  load_data (Some Sample.engine) Sample.warehouse
    (Sample.day_of 2024 5 1) (Sample.day_of 2024 5 7) = Returns Sample.week_stats
  /\ exists rest,
       Permutation (Sample.week_stats ++ rest)
         (city_stats_groups (Sample.day_of 2024 5 1) (Sample.day_of 2024 5 7)
            (EVENTS Sample.warehouse))
       /\ (forall r r', In r Sample.week_stats -> In r' rest ->
             (number_of_users r' <= number_of_users r)%Z)
       /\ ((List.length Sample.week_stats < 10)%nat -> rest = []).
Proof.
  split; [reflexivity|].
  apply (load_data_keeps_the_largest (Some Sample.engine) Sample.warehouse
           (Sample.day_of 2024 5 1) (Sample.day_of 2024 5 7)).
  reflexivity.
Defined.

(* ------------------------------------------------------------------ *)
(** ** Events: what the rows of the query mean *)

Lemma date_eqb_eq (a b : date) : date_eqb a b = true <-> a = b.
Proof.
  unfold date_eqb, date_compare. destruct a as [y m d], b as [y' m' d']. simpl.
  destruct (Z.compare_spec y y') as [Ey|Ey|Ey];
    destruct (Z.compare_spec m m') as [Em|Em|Em];
    destruct (Z.compare_spec d d') as [Ed|Ed|Ed];
    split; intros H; try discriminate; try reflexivity;
    try (injection H; lia); subst; reflexivity.
Qed.

Lemma purchase_key_eqb_eq (a b : option date * option string * option string) :
  purchase_key_eqb a b = true <-> a = b.
Proof.
  destruct a as [[d u] t], b as [[d' u'] t']. unfold purchase_key_eqb. simpl.
  rewrite !andb_true_iff, !option_string_eqb_eq.
  assert (Hd : option_eqb date_eqb d d' = true <-> d = d').
  { destruct d, d'; simpl; try (split; congruence).
    rewrite date_eqb_eq. split; congruence. }
  rewrite Hd. split; [intros [[-> ->] ->]; reflexivity | intros [= -> -> ->]; auto].
Qed.

Lemma fetch_returns_query engine w user_id results :
  fetch_user_purchases engine w user_id = Returns results ->
  results = user_purchase_query user_id (EVENTS w).
Proof.
  intros H. apply read_sql_returns in H. destruct H as (f & Hf & ->).
  destruct (sql_literal_safe user_id); [|discriminate].
  now injection Hf as <-.
Qed.

Lemma purchase_where_matches user_id tbl (x : event * stats_entry) :
  In x (filter (purchase_where user_id) (events_flatten tbl))
  <-> exists p, purchase_of user_id tbl (fst x) (snd x) p.
Proof.
  rewrite filter_In. unfold events_flatten, purchase_where, purchase_of, is_purchase.
  rewrite in_flat_map, !andb_true_iff, !option_string_eqb_eq.
  destruct x as [ev f]. simpl. split.
  - intros [(ev' & Hev & Hf) [[Hu Hn] Hp]].
    apply in_map_iff in Hf. destruct Hf as (f' & [= -> ->] & Hf).
    destruct (UNSTRUCT_IN_APP_PURCHASE ev) as [p|]; [|discriminate].
    exists p. repeat split; try assumption.
    destruct (CONTEXTS_USER_BASE_STATS ev) as [c|]; [|destruct Hf]. eauto.
  - intros (p & Hev & (c & Hc & Hf) & Hu & Hn & Hp).
    rewrite Hp. repeat split; try assumption.
    exists ev. split; [exact Hev|]. rewrite Hc. now apply in_map.
Qed.

Lemma purchase_select_keys (gs : list ((option date * option string * option string)
                                       * list (event * stats_entry))) :
  map row_key (map purchase_select gs) = map fst gs.
Proof.
  rewrite map_map. apply map_ext. now intros [[[d u] t] m].
Qed.

Lemma user_purchase_query_sound user_id tbl r :
  In r (user_purchase_query user_id tbl) ->
  exists ev f p,
    purchase_of user_id tbl ev f p
    /\ purchase_date r = DATE (derived_tstamp ev)
    /\ user_name r = entry_user_name f
    /\ purchase_data r = Some (purchase_text p).
Proof.
  intros Hr. unfold user_purchase_query in Hr.
  apply (Permutation_in _ (Permutation_sym (sort_by_perm _ _))) in Hr.
  apply (in_map row_key) in Hr. rewrite purchase_select_keys in Hr.
  apply (group_by_keys _ _ purchase_key_eqb_eq) in Hr.
  destruct Hr as ([ev f] & Hx & Hk).
  apply purchase_where_matches in Hx. destruct Hx as (p & Hp). simpl in Hp.
  exists ev, f, p. split; [exact Hp|].
  destruct Hp as (_ & _ & _ & _ & Hpay).
  unfold row_key, purchase_key in Hk. simpl in Hk. rewrite Hpay in Hk.
  now injection Hk as <- <- <-.
Qed.

Lemma user_purchase_query_complete user_id tbl ev f p :
  purchase_of user_id tbl ev f p ->
  exists r,
    In r (user_purchase_query user_id tbl)
    /\ row_key r
       = (DATE (derived_tstamp ev), entry_user_name f, Some (purchase_text p)).
Proof.
  intros Hp.
  assert (Hx : In (ev, f) (filter (purchase_where user_id) (events_flatten tbl))).
  { apply purchase_where_matches. now exists p. }
  assert (Hk : In (purchase_key (ev, f))
                 (map fst (group_by purchase_key_eqb purchase_key
                    (filter (purchase_where user_id) (events_flatten tbl))))).
  { apply (group_by_keys _ _ purchase_key_eqb_eq). now exists (ev, f). }
  rewrite <- purchase_select_keys in Hk. apply in_map_iff in Hk.
  destruct Hk as (r & Hkey & Hr). exists r. split.
  - unfold user_purchase_query. apply (Permutation_in _ (sort_by_perm _ _)), Hr.
  - rewrite Hkey. unfold purchase_key. simpl.
    destruct Hp as (_ & _ & _ & _ & ->). reflexivity.
Qed.

(** X4. For a user id that holds neither a quote nor a backslash, every
    row that the Events query returns stems from a purchase event of the
    entered user: an event named [in_app_purchase] with a non-null payload
    and a context element with that uuid. The row carries the date of the
    event, the user name of the element and the payload text, which is
    therefore never absent. *)
Theorem purchase_rows_sound engine w user_id results r :
  sql_literal_safe user_id = true ->
  fetch_user_purchases engine w user_id = Returns results ->
  In r results ->
  exists ev f p,
    purchase_of user_id (EVENTS w) ev f p
    /\ purchase_date r = DATE (derived_tstamp ev)
    /\ user_name r = entry_user_name f
    /\ purchase_data r = Some (purchase_text p).
Proof.
  intros _ H Hr. apply fetch_returns_query in H. subst results.
  now apply user_purchase_query_sound.
Qed.

Lemma purchase_rows_sound_witness :
  sql_literal_safe "u1" = true
  /\ fetch_user_purchases (Some Sample.engine) Sample.warehouse "u1"
     = Returns Sample.dana_rows
  /\ exists ev f p,
       purchase_of "u1" (EVENTS Sample.warehouse) ev f p
       /\ Some (Sample.day_of 2024 5 1) = DATE (derived_tstamp ev)
       /\ Some "Dana" = entry_user_name f
       /\ Some (Json.doc "{'iap_price': 1.99, 'user_name': 'x', 'Total_Amount': 3}")
          = Some (purchase_text p).
Proof.
  split; [reflexivity|]. split; [reflexivity|].
  apply (purchase_rows_sound (Some Sample.engine) Sample.warehouse "u1"
           Sample.dana_rows
           {| purchase_date := Some (Sample.day_of 2024 5 1);
              user_name := Some "Dana";
              purchase_data :=
                Some (Json.doc "{'iap_price': 1.99, 'user_name': 'x', 'Total_Amount': 3}");
              daily_purchase_amount := Some (199 # 100) |}).
  - reflexivity.
  - reflexivity.
  - left. reflexivity.
Defined.

(** X5. Every purchase event of the entered user is in the result of the
    Events query: some row has its date, the user name of its context
    element and its payload text. *)
Theorem purchase_rows_complete engine w user_id results ev f p :
  fetch_user_purchases engine w user_id = Returns results ->
  purchase_of user_id (EVENTS w) ev f p ->
  exists r,
    In r results
    /\ row_key r
       = (DATE (derived_tstamp ev), entry_user_name f, Some (purchase_text p)).
Proof.
  intros H Hp. apply fetch_returns_query in H. subst results.
  now apply user_purchase_query_complete.
Qed.

Lemma purchase_rows_complete_witness :
  fetch_user_purchases (Some Sample.engine) Sample.warehouse "u9"
  = Returns Sample.gil_rows
  /\ exists r,
       In r Sample.gil_rows
       /\ row_key r
          = (Some (Sample.day_of 2024 5 4), Some "Gil",
             Some (Json.doc "{'sku': 'coins'}")).
Proof.
  split; [reflexivity|].
  apply (purchase_rows_complete (Some Sample.engine) Sample.warehouse "u9"
           Sample.gil_rows
           (Sample.purchase "Haifa" (Sample.day_of 2024 5 4) Sample.gil
              "{'sku': 'coins'}" (99 # 100))
           {| entry_uuid := Some "u9"; entry_user_name := Some "Gil" |}
           {| purchase_text := Json.doc "{'sku': 'coins'}";
              iap_price := Some (99 # 100) |}).
  - reflexivity.
  - split; [right; right; right; right; left; reflexivity|].
    split; [eexists; split; [reflexivity | left; reflexivity]|].
    repeat split.
Defined.

(** X6. No two rows of the Events query agree on date, user name and
    payload: the statement groups by the three. *)
Theorem purchase_rows_distinct engine w user_id results :
  fetch_user_purchases engine w user_id = Returns results ->
  NoDup (map row_key results).
Proof.
  intros H. apply fetch_returns_query in H. subst results.
  unfold user_purchase_query. eapply Permutation_NoDup.
  - apply Permutation_map, sort_by_perm.
  - rewrite purchase_select_keys.
    apply (group_by_grouped _ _ purchase_key_eqb_eq).
Qed.

Lemma purchase_rows_distinct_witness :
  fetch_user_purchases (Some Sample.engine) Sample.warehouse "u1"
  = Returns Sample.dana_rows
  /\ NoDup (map row_key Sample.dana_rows).
Proof.
  split; [reflexivity|].
  apply (purchase_rows_distinct (Some Sample.engine) Sample.warehouse "u1").
  reflexivity.
Defined.

Lemma date_compare_antisym (a b : date) :
  date_compare a b = Gt -> date_compare b a = Lt.
Proof.
  unfold date_compare.
  rewrite (Z.compare_antisym (year a) (year b)),
          (Z.compare_antisym (month a) (month b)),
          (Z.compare_antisym (day a) (day b)).
  destruct (year a ?= year b)%Z; simpl; try congruence;
  destruct (month a ?= month b)%Z; simpl; try congruence;
  destruct (day a ?= day b)%Z; simpl; congruence.
Qed.

Lemma purchase_date_asc_total (a b : UserPurchaseRow) :
  purchase_date_asc a b = false -> purchase_date_asc b a = true.
Proof.
  unfold purchase_date_asc.
  destruct (purchase_date a) as [x|], (purchase_date b) as [y|];
    try congruence.
  destruct (date_compare x y) eqn:E; try discriminate.
  now rewrite (date_compare_antisym _ _ E).
Qed.

(** X7. The rows of the Events query are in ascending order of
    [purchase_date], rows without a date last. *)
Theorem purchase_rows_by_date engine w user_id results :
  fetch_user_purchases engine w user_id = Returns results ->
  Sorted (fun a b => purchase_date_asc a b = true) results.
Proof.
  intros H. apply fetch_returns_query in H. subst results.
  unfold user_purchase_query. apply sort_by_sorted, purchase_date_asc_total.
Qed.

Lemma purchase_rows_by_date_witness :
  fetch_user_purchases (Some Sample.engine) Sample.warehouse "u1"
  = Returns Sample.dana_rows
  /\ Sorted (fun a b => purchase_date_asc a b = true) Sample.dana_rows.
Proof.
  split; [reflexivity|].
  apply (purchase_rows_by_date (Some Sample.engine) Sample.warehouse "u1").
  reflexivity.
Defined.

(* ------------------------------------------------------------------ *)
(** ** The connection across calls and runs *)

(** X8. When the first attempt to build the engine fails, the first call
    of [init_connection] returns [None] and shows the failure; every
    later call returns [None] as well, whatever the state of the world
    then, and no second attempt is made. *)
Theorem init_connection_failure_memoized w e ws :
  connect_fault w 0%nat = Some e ->
  snd (init_connection w fresh_process)
  = (None, [st.error ("Error connecting to Snowflake: " ++ str_exn e)])
  /\ Forall (eq None)
       (snd (init_connection_calls ws (fst (init_connection w fresh_process))))
  /\ attempts (fst (init_connection_calls ws (fst (init_connection w fresh_process))))
     = 1%nat
  /\ engines (fst (init_connection_calls ws (fst (init_connection w fresh_process))))
     = [].
Proof.
  intros He.
  assert (H1 : init_connection w fresh_process
               = ({| cache_resource :=
                       Some (None, [st.error ("Error connecting to Snowflake: "
                                              ++ str_exn e)]);
                     attempts := 1; engines := [] |},
                  (None, [st.error ("Error connecting to Snowflake: " ++ str_exn e)]))).
  { unfold init_connection, init_connection_body, create_engine. simpl.
    now rewrite He. }
  rewrite H1. cbn [fst snd].
  erewrite init_connection_calls_hit by reflexivity.
  cbn [fst snd].
  repeat split. apply Forall_forall. intros x Hx. apply in_map_iff in Hx.
  now destruct Hx as (_ & <- & _).
Qed.

Lemma init_connection_failure_memoized_witness :
  connect_fault Sample.unreachable 0%nat = Some (ConnectError "Invalid account")
  /\ snd (init_connection Sample.unreachable fresh_process)
     = (None, [st.error "Error connecting to Snowflake: Invalid account"])
  /\ Forall (eq None)
       (snd (init_connection_calls [Sample.warehouse; Sample.warehouse]
               (fst (init_connection Sample.unreachable fresh_process)))).
Proof.
  split; [reflexivity|].
  destruct (init_connection_failure_memoized Sample.unreachable
              (ConnectError "Invalid account")
              [Sample.warehouse; Sample.warehouse] eq_refl) as (H1 & H2 & _).
  split; [exact H1 | exact H2].
Defined.

Lemma main_process w p i : fst (main w p i) = fst (init_connection w p).
Proof.
  unfold main. now destruct (init_connection w p) as [p' [engine shown]].
Qed.

Lemma init_connection_built_once w p :
  built_once p -> built_once (fst (init_connection w p)).
Proof.
  unfold built_once, init_connection, init_connection_body, create_engine.
  destruct (cache_resource p) as [r|] eqn:E; simpl.
  - now rewrite E.
  - intros [-> ->]. destruct (connect_fault w 0); simpl; auto.
Qed.

Lemma main_runs_built_once runs p :
  built_once p -> built_once (fst (main_runs runs p)).
Proof.
  revert p. induction runs as [|[w i] runs IH]; intros p Hp; simpl; [exact Hp|].
  destruct (main w p i) as [p1 r] eqn:E1.
  destruct (main_runs runs p1) as [p2 rs] eqn:E2. simpl.
  change p2 with (fst (p2, rs)). rewrite <- E2. apply IH.
  change p1 with (fst (p1, r)). rewrite <- E1, main_process.
  now apply init_connection_built_once.
Qed.

(** X9. However often the script is run in a process, and in whatever
    states of the world, at most one attempt to build an engine is made
    and at most one engine exists. *)
Theorem main_runs_build_once runs :
  (attempts (fst (main_runs runs fresh_process)) <= 1)%nat
  /\ (List.length (engines (fst (main_runs runs fresh_process))) <= 1)%nat.
Proof.
  assert (H : built_once (fst (main_runs runs fresh_process))).
  { apply main_runs_built_once. unfold built_once. simpl. auto. }
  unfold built_once in H.
  destruct (cache_resource _); destruct H as [Ha He]; rewrite ?Ha, ?He; simpl; lia.
Qed.

(* ------------------------------------------------------------------ *)
(** ** What leaves the views *)

Lemma snd_bind {A B} (c : script A) (k : A -> script B) :
  snd (bind c k)
  = match snd c with
    | Returns a => snd (k a)
    | Raises e => Raises e
    | Unmodelled => Unmodelled
    end.
Proof. unfold bind. now destruct (snd c). Qed.

Lemma general_statistics_outcome engine w i :
  snd (general_statistics engine w i)
  = if Run i
    then match load_data engine w (start_date i) (end_date i) with
         | Returns _ => Returns tt
         | Raises e => Raises e
         | Unmodelled => Unmodelled
         end
    else Returns tt.
Proof.
  unfold general_statistics. rewrite !snd_bind_emit.
  destruct (Run i); [|reflexivity].
  rewrite snd_bind. unfold call. cbn [snd].
  destruct (load_data engine w (start_date i) (end_date i)); try reflexivity.
  now destruct (negb (empty a)).
Qed.

(** X10. An exception leaves [main] in one case only: [Run] is pressed and
    [load_data] raises; the exception is then the one [load_data] raised. *)
Theorem main_raises_iff w p i e :
  snd (snd (main w p i)) = Raises e
  <-> Run i = true
      /\ load_data (fst (snd (init_connection w p))) w (start_date i) (end_date i)
         = Raises e.
Proof.
  unfold main. destruct (init_connection w p) as [p' [engine shown]].
  cbn [fst snd]. rewrite !snd_bind. cbn [snd emit].
  rewrite general_statistics_outcome.
  destruct (Run i).
  - destruct (load_data engine w (start_date i) (end_date i)) as [data|e'|].
    + split; [|intros [_ H]; discriminate].
      intros H. now destruct (events_never_raises engine w i e).
    + split; [intros [= ->]; auto | intros [_ [= ->]]; reflexivity].
    + split; [discriminate | intros [_ H]; discriminate].
  - split; [|intros [H _]; discriminate].
    intros H. now destruct (events_never_raises engine w i e).
Qed.

(** X11. A run in which [Run] is not pressed and no user id is entered
    sends no statement: it is the same run whatever the table holds and
    whether or not the warehouse answers. *)
Theorem idle_run_ignores_warehouse w w' p i :
  Run i = false ->
  user_id i = "" ->
  connect_fault w = connect_fault w' ->
  main w p i = main w' p i.
Proof.
  intros Hrun Hid Hc.
  unfold main, init_connection, init_connection_body, create_engine,
    general_statistics, events.
  rewrite Hrun, Hid, Hc. reflexivity.
Qed.

Lemma idle_run_ignores_warehouse_witness :
  main Sample.warehouse fresh_process
    {| start_date := Sample.day_of 2024 5 1; end_date := Sample.day_of 2024 5 7;
       Run := false; user_id := "" |}
  = main Sample.warehouse_down fresh_process
      {| start_date := Sample.day_of 2024 5 1; end_date := Sample.day_of 2024 5 7;
         Run := false; user_id := "" |}.
Proof.
  apply (idle_run_ignores_warehouse Sample.warehouse Sample.warehouse_down);
    reflexivity.
Defined.

(** The cases of the Events view once an id is entered. *)
Lemma events_cases engine w i :
  Str.truthy (user_id i) = true ->
  let head := [ (st.tab2, st.header "Events");
                (st.tab2, st.text_input "Enter User ID" (user_id i)) ] in
  (exists e, events engine w i
     = (head ++ [(st.tab2, st.error ("Error executing query: " ++ str_exn e))],
        Returns tt))
  \/ events engine w i
     = (head ++ [(st.tab2, st.warning "No purchase data found for this user ID.")],
        Returns tt)
  \/ (exists results df,
        events engine w i
        = (head ++
           [ (st.tab2, st.subheader ("Purchase Data for User: "
                                     ++ first_user_name results));
             (st.tab2, st.plotly_chart
                (px.bar (purchase_frame results) "purchase_date"
                        "daily_purchase_amount"
                        ("Daily Purchase Amounts for " ++ first_user_name results)));
             (st.tab2, st.subheader "Detailed Purchase Information");
             (st.tab2, st.dataframe df (column_config df)) ],
           Returns tt))
  \/ (exists results e,
        events engine w i
        = (head ++
           [ (st.tab2, st.subheader ("Purchase Data for User: "
                                     ++ first_user_name results));
             (st.tab2, st.plotly_chart
                (px.bar (purchase_frame results) "purchase_date"
                        "daily_purchase_amount"
                        ("Daily Purchase Amounts for " ++ first_user_name results)));
             (st.tab2, st.error ("Error executing query: " ++ str_exn e)) ],
           Returns tt))
  \/ (forallb in_events_tab (fst (events engine w i)) = true
      /\ snd (events engine w i) = Unmodelled).
Proof.
  intros Hid head. unfold events. rewrite Hid.
  destruct (fetch_user_purchases engine w (user_id i)) as [results|e|] eqn:Hq.
  - rewrite bind_call_returns. unfold show_purchases.
    destruct results as [|r0 results]; cbn [empty negb].
    + right. left. reflexivity.
    + destruct (flatten (r0 :: results)) as [df|e|] eqn:Hf.
      * right. right. left. exists (r0 :: results), df.
        rewrite bind_call_returns. reflexivity.
      * right. right. right. left. exists (r0 :: results), e. reflexivity.
      * right. right. right. right. split; reflexivity.
  - left. exists e. reflexivity.
  - right. right. right. right. split; reflexivity.
Qed.

(** X12. Once a user id is entered, a run of the Events view that comes to
    its end answers with exactly one of the detail table, the warning and
    the error message. *)
Theorem events_answers_once engine w i :
  Str.truthy (user_id i) = true ->
  snd (events engine w i) = Returns tt ->
  List.length (filter is_answer (fst (events engine w i))) = 1%nat.
Proof.
  intros Hid Hend.
  destruct (events_cases engine w i Hid)
    as [(e & E)|[E|[(rs & df & E)|[(rs & e & E)|[_ E]]]]].
  - now rewrite E.
  - now rewrite E.
  - now rewrite E.
  - now rewrite E.
  - congruence.
Qed.

Lemma events_answers_once_witness :
  Str.truthy (user_id Sample.week) = true
  /\ snd (events (Some Sample.engine) Sample.warehouse Sample.week) = Returns tt
  /\ List.length (filter is_answer
       (fst (events (Some Sample.engine) Sample.warehouse Sample.week))) = 1%nat.
Proof.
  split; [reflexivity|]. split; [reflexivity|].
  apply (events_answers_once (Some Sample.engine) Sample.warehouse Sample.week);
    reflexivity.
Defined.

(** X13. Each view puts its elements in its own tab: the Events view in
    the second tab, the General Statistics view in the first tab and its
    two columns. *)
Theorem views_keep_to_their_tabs engine w i :
  forallb in_events_tab (fst (events engine w i)) = true
  /\ forallb in_statistics_tab (fst (general_statistics engine w i)) = true.
Proof.
  split.
  - destruct (Str.truthy (user_id i)) eqn:Hid.
    + destruct (events_cases engine w i Hid)
        as [(e & E)|[E|[(rs & df & E)|[(rs & e & E)|[E _]]]]];
        rewrite E; reflexivity.
    + unfold events. rewrite Hid. reflexivity.
  - unfold general_statistics. destruct (Run i); [|reflexivity].
    destruct (load_data engine w (start_date i) (end_date i)) as [data| |];
      try reflexivity.
    rewrite bind_call_returns. now destruct data.
Qed.

(** X14. No exception leaves the Events view, for any engine, world and
    input: a run of the view comes to its end, except on the inputs whose
    behaviour is left out. *)
Theorem events_catches_everything engine w i :
  snd (events engine w i) = Returns tt \/ snd (events engine w i) = Unmodelled.
Proof.
  destruct (Str.truthy (user_id i)) eqn:Hid.
  - destruct (events_cases engine w i Hid)
      as [(e & E)|[E|[(rs & df & E)|[(rs & e & E)|[_ E]]]]];
      try (rewrite E; now left). now right.
  - unfold events. rewrite Hid. now left.
Qed.

(** X15. When no engine could be built, a run with a user id entered and
    [Run] not pressed shows the connection failure, and the Events view
    shows the failure of its query as an error message; the run comes to
    its end. *)
Theorem events_without_engine w e i :
  connect_fault w 0%nat = Some e ->
  Run i = false ->
  Str.truthy (user_id i) = true ->
  exists e',
    snd (main w fresh_process i)
    = ([ (st.page, st.title "Match Masters Analysis");
         (st.page, st.tabs ["General Statistics"; "Events"]);
         (st.page, st.error ("Error connecting to Snowflake: " ++ str_exn e));
         (st.tab1, st.header "General Statistics");
         (st.tab1, st.columns 2);
         (st.col1, st.date_input "Start Date" (start_date i));
         (st.col2, st.date_input "End Date" (end_date i));
         (st.tab1, st.button "Run" false);
         (st.tab2, st.header "Events");
         (st.tab2, st.text_input "Enter User ID" (user_id i));
         (st.tab2, st.error ("Error executing query: " ++ str_exn e')) ],
       Returns tt).
Proof.
  intros He Hrun Hid. eexists.
  unfold main, init_connection, init_connection_body, create_engine. simpl.
  rewrite He. unfold general_statistics, events. rewrite Hrun, Hid.
  reflexivity.
Qed.

Lemma events_without_engine_witness :
  connect_fault Sample.unreachable 0%nat = Some (ConnectError "Invalid account")
  /\ exists e',
       snd (main Sample.unreachable fresh_process Sample.ask_gil)
       = ([ (st.page, st.title "Match Masters Analysis");
            (st.page, st.tabs ["General Statistics"; "Events"]);
            (st.page, st.error "Error connecting to Snowflake: Invalid account");
            (st.tab1, st.header "General Statistics");
            (st.tab1, st.columns 2);
            (st.col1, st.date_input "Start Date" (Sample.day_of 2024 5 1));
            (st.col2, st.date_input "End Date" (Sample.day_of 2024 5 7));
            (st.tab1, st.button "Run" false);
            (st.tab2, st.header "Events");
            (st.tab2, st.text_input "Enter User ID" "u9");
            (st.tab2, st.error ("Error executing query: " ++ str_exn e')) ],
          Returns tt).
Proof.
  split; [reflexivity|].
  apply (events_without_engine Sample.unreachable (ConnectError "Invalid account")
           Sample.ask_gil); reflexivity.
Defined.

(* ------------------------------------------------------------------ *)
(** ** When the detail table is built, and its shape *)

Lemma omap_returns_inv {A B} (f : A -> outcome B) (l : list A) (l' : list B) :
  omap f l = Returns l' -> Forall2 (fun x y => f x = Returns y) l l'.
Proof.
  revert l'. induction l as [|x l IH]; simpl; intros l'.
  - intros [= <-]. constructor.
  - destruct (f x) as [y| |] eqn:E; simpl; try discriminate.
    destruct (omap f l) as [ys| |]; simpl; try discriminate.
    intros [= <-]. constructor; [exact E | now apply IH].
Qed.

Lemma Forall2_In_l {A B} (P : A -> B -> Prop) (l : list A) (l' : list B) (x : A) :
  Forall2 P l l' -> In x l -> exists y, P x y.
Proof.
  induction 1 as [|a b l l' Hab _ IH]; simpl; [tauto|].
  intros [<-|H]; eauto.
Qed.

Lemma as_dict_inv (details : list json) (records : list (dict json)) :
  omap as_dict details = Returns records -> details = map JObject records.
Proof.
  intros H. apply omap_returns_inv in H.
  induction H as [|v d details records Hv _ IH]; simpl; [reflexivity|].
  destruct v; try discriminate. injection Hv as <-. now rewrite IH.
Qed.

Lemma decodes_to_map (results : list UserPurchaseRow) (records : list (dict json)) :
  Forall2 (fun r v => purchase_details (purchase_data r) = Returns v)
          results (map JObject records) ->
  Forall2 decodes_to results records.
Proof.
  revert results. induction records as [|d records IH]; simpl; intros results H.
  - inversion H. constructor.
  - inversion H as [|r v rs vs Hr Hrs]; subst. constructor; [exact Hr | now apply IH].
Qed.

(** The frame of line 166 exists only when every payload decodes to an
    object. *)
Lemma details_frame_inv results df0 :
  details_frame results = Returns df0 ->
  exists records, Forall2 decodes_to results records /\ df0 = from_records records.
Proof.
  unfold details_frame.
  destruct (omap _ results) as [details| |] eqn:E; simpl; try discriminate.
  apply omap_returns_inv in E.
  destruct details as [|v details].
  - intros [= <-]. exists []. inversion E. split; [constructor | reflexivity].
  - destruct v; try discriminate.
    change (DataFrame_of_list (JObject members :: details))
      with (obind (omap as_dict (JObject members :: details))
                  (fun rs => Returns (from_records rs))).
    destruct (omap as_dict (JObject members :: details)) as [rs| |] eqn:E2;
      simpl; try discriminate.
    intros [= <-]. exists rs. split; [|reflexivity].
    apply as_dict_inv in E2. rewrite E2 in E. now apply decodes_to_map.
Qed.

(** The steps of lines 169 to 177 on the frame of the payloads, up to the
    writing out of the dates. *)
Lemma add_fixed_columns_steps results records :
  add_fixed_columns results (from_records records)
  = obind (omap format_date (map (fun r => date_cell (purchase_date r)) results))
      (fun dates =>
         Returns
           {| index := List.length records;
              series :=
                ("purchase_date", dates)
                :: ("user_name", map (fun r => str_cell (user_name r)) results)
                :: map (fun c => (c, map (fun d => cell_of (dict_get c d)) records))
                       (filter not_fixed (first_seen (flat_map keys records))) |}).
Proof.
  unfold add_fixed_columns, columns.
  cbn [setitem series index].
  set (D := map (fun r => date_cell (purchase_date r)) results).
  set (N := map (fun r => str_cell (user_name r)) results).
  rewrite !keys_dict_set_others by reflexivity.
  change (keys (series (from_records records)))
    with (columns (from_records records)).
  rewrite from_records_columns.
  set (F := filter not_fixed (first_seen (flat_map keys records))).
  set (col := fun c => map (fun d => cell_of (dict_get c d)) records).
  assert (HF : forall c, In c F ->
             dict_get c (dict_set "user_name" N
                           (dict_set "purchase_date" D
                              (series (from_records records))))
             = Some (col c)).
  { intros c Hc. apply filter_In in Hc. destruct Hc as [Hc Hn].
    apply not_fixed_neq in Hn. destruct Hn as [Hd Hu].
    rewrite !dict_get_set_other by assumption.
    now apply from_records_column. }
  unfold getitem. cbn [setitem series index]. unfold fixed_columns at 1.
  cbn [app omap].
  rewrite dict_get_set_other by discriminate.
  rewrite !dict_get_set_same. cbn [obind].
  rewrite (omap_returns _ (fun c => (c, col c))).
  2:{ intros c Hc. now rewrite (HF c Hc). }
  cbn [obind series index dict_get]. rewrite String.eqb_refl.
  destruct (omap format_date D) as [dates| |]; reflexivity.
Qed.

Lemma format_dates_inv (results : list UserPurchaseRow) (dates : list cell) :
  omap format_date (map (fun r => date_cell (purchase_date r)) results)
  = Returns dates ->
  dates_in_bounds results.
Proof.
  rewrite omap_map. intros H r d Hr Hd. apply omap_returns_inv in H.
  destruct (Forall2_In_l _ _ _ r H Hr) as [y Hy].
  rewrite Hd in Hy. simpl in Hy.
  now destruct (in_timestamp_bounds d).
Qed.

Lemma flatten_returns_only_if results df :
  flatten results = Returns df ->
  (exists records, Forall2 decodes_to results records)
  /\ dates_in_bounds results.
Proof.
  intros H. unfold flatten in H.
  destruct (details_frame results) as [df0| |] eqn:E; simpl in H;
    try discriminate.
  apply details_frame_inv in E. destruct E as (records & Hd & ->).
  split; [now exists records|].
  rewrite add_fixed_columns_steps in H.
  destruct (omap format_date _) as [dates| |] eqn:Ef; simpl in H;
    try discriminate.
  now apply format_dates_inv in Ef.
Qed.



Lemma dict_get_tabulate_inv {V} (g : string -> V) (c : string) (l : list string) (v : V) :
  dict_get c (map (fun c => (c, g c)) l) = Some v -> v = g c /\ In c l.
Proof.
  induction l as [|x l IH]; simpl; [discriminate|].
  destruct (String.eqb_spec c x) as [->|Hne].
  - intros [= <-]. auto.
  - intros H. destruct (IH H). auto.
Qed.

Lemma flatten_inv results df :
  flatten results = Returns df ->
  exists records,
    Forall2 decodes_to results records
    /\ df = {| index := List.length records;
               series :=
                 ("purchase_date", map (fun r => formatted_date (purchase_date r)) results)
                 :: ("user_name", map (fun r => str_cell (user_name r)) results)
                 :: map (fun c => (c, map (fun d => cell_of (dict_get c d)) records))
                        (filter not_fixed (first_seen (flat_map keys records))) |}.
Proof.
  intros H.
  destruct (flatten_returns_only_if results df H) as [[records Hd] Hb].
  exists records. split; [exact Hd|].
  rewrite (flatten_returns _ _ Hd Hb) in H. now injection H.
Qed.

(** X17. A detail table that the transform gives has one row per row of
    the query result, in the same order: every column has that many
    cells, and row [n] holds the date, written out, and the user name of
    row [n] of the result. *)
Theorem flatten_table_shape results df :
  flatten results = Returns df ->
  index df = List.length results
  /\ (forall c col, dict_get c (series df) = Some col ->
        List.length col = List.length results)
  /\ (forall n r, nth_error results n = Some r ->
        cell_at df n "purchase_date" = Some (formatted_date (purchase_date r))
        /\ cell_at df n "user_name" = Some (str_cell (user_name r))).
Proof.
  intros H. apply flatten_inv in H. destruct H as (records & Hd & ->).
  pose proof (Forall2_length Hd) as Hlen. split; [now simpl|]. split.
  - intros c col. cbn [series dict_get].
    destruct (String.eqb c "purchase_date"); [intros [= <-]; apply length_map|].
    destruct (String.eqb c "user_name"); [intros [= <-]; apply length_map|].
    intros Hc. apply dict_get_tabulate_inv in Hc. destruct Hc as [-> _].
    now rewrite length_map.
  - intros n r Hn. unfold cell_at. cbn [series dict_get]. simpl String.eqb.
    cbv iota. rewrite !nth_error_map, Hn. now split.
Qed.

Lemma flatten_table_shape_witness :
  flatten Sample.dana_rows
  = Returns
      {| index := 2;
         series :=
           [ ("purchase_date", [Obj (JString "2024-05-01"); Obj (JString "2024-05-02")]);
             ("user_name", [Obj (JString "Dana"); Obj (JString "Dana")]);
             ("iap_price", [Obj (JNumber "1.99"); Obj (JNumber "4.99")]);
             ("Total_Amount", [Obj (JNumber "3"); NaN]);
             ("sku", [NaN; Obj (JString "gems")]) ] |}
  /\ 2%nat = List.length Sample.dana_rows.
Proof.
  split; [reflexivity|].
  apply (flatten_table_shape Sample.dana_rows
           {| index := 2;
              series :=
                [ ("purchase_date", [Obj (JString "2024-05-01"); Obj (JString "2024-05-02")]);
                  ("user_name", [Obj (JString "Dana"); Obj (JString "Dana")]);
                  ("iap_price", [Obj (JNumber "1.99"); Obj (JNumber "4.99")]);
                  ("Total_Amount", [Obj (JNumber "3"); NaN]);
                  ("sku", [NaN; Obj (JString "gems")]) ] |}).
  reflexivity.
Defined.

(** X18. For a detail table that the transform gives, [column_config]
    names columns of the table only, and the two fixed columns keep their
    labels, whatever keys the payloads hold. *)
Theorem column_config_of_flatten results df :
  flatten results = Returns df ->
  (forall c spec, dict_get c (column_config df) = Some spec -> In c (columns df))
  /\ dict_get "purchase_date" (column_config df) = Some (Label "Date")
  /\ dict_get "user_name" (column_config df) = Some (Label "User Name").
Proof.
  intros H. apply flatten_inv in H. destruct H as (records & _ & ->).
  unfold column_config. split; [|split].
  - intros c spec. rewrite column_config_fold.
    destruct (Str.mem c _) eqn:E.
    + intros _. apply mem_In, filter_In in E. tauto.
    + unfold columns, keys. cbn [series map fst dict_get].
      destruct (String.eqb_spec c "purchase_date") as [->|]; [intros _; now left|].
      destruct (String.eqb_spec c "user_name") as [->|]; [intros _; right; now left|].
      discriminate.
  - rewrite column_config_fold.
    rewrite (proj2 (mem_false _ _)); [reflexivity|].
    rewrite filter_In. intros [_ E]. discriminate.
  - rewrite column_config_fold.
    rewrite (proj2 (mem_false _ _)); [reflexivity|].
    rewrite filter_In. intros [_ E]. discriminate.
Qed.

Lemma column_config_of_flatten_witness :
  exists df,
    flatten Sample.dana_rows = Returns df
    /\ dict_get "purchase_date" (column_config df) = Some (Label "Date")
    /\ dict_get "user_name" (column_config df) = Some (Label "User Name").
Proof.
  eexists. split; [reflexivity|].
  apply (column_config_of_flatten Sample.dana_rows). reflexivity.
Defined.

(* ------------------------------------------------------------------ *)
(** ** The test on column names *)

Lemma startswith_iff (p s : string) :
  Str.startswith p s = true <-> exists b, s = (p ++ b)%string.
Proof.
  revert s. induction p as [|a p IH]; intros s; simpl.
  - split; [intros _; now exists s | reflexivity].
  - destruct s as [|c s]; [split; [discriminate | intros [b H]; discriminate]|].
    rewrite andb_true_iff, Ascii.eqb_eq, IH. split.
    + intros [-> [b ->]]. now exists b.
    + intros [b [= -> ->]]. split; [reflexivity | now exists b].
Qed.

(** [p in s] holds exactly when [s] is some text, then [p], then some
    text. *)
Lemma contains_iff (p s : string) :
  Str.contains p s = true <-> exists a b, s = (a ++ p ++ b)%string.
Proof.
  induction s as [|c s IH].
  - simpl. rewrite orb_false_r, startswith_iff. split.
    + intros [b H]. now exists EmptyString, b.
    + intros (a & b & H). destruct a; [now exists b | discriminate].
  - cbn [Str.contains]. rewrite orb_true_iff, startswith_iff, IH. split.
    + intros [[b H]|(a & b & H)].
      * now exists EmptyString, b.
      * exists (String c a), b. simpl. now rewrite H.
    + intros (a & b & H). destruct a as [|c' a].
      * left. now exists b.
      * right. injection H as _ H. now exists a, b.
Qed.

(** X19. A column is given the price format exactly when its name, with
    its ASCII capitals lowered, holds [price] or [amount] somewhere. *)
Theorem price_column_iff (col : string) :
  is_price_column col = true
  <-> exists a b,
        Str.lower col = (a ++ "price" ++ b)%string
        \/ Str.lower col = (a ++ "amount" ++ b)%string.
Proof.
  unfold is_price_column. cbn [existsb].
  rewrite orb_false_r, orb_true_iff, !contains_iff. split.
  - intros [(a & b & H)|(a & b & H)]; exists a, b; auto.
  - intros (a & b & [H|H]); [left | right]; now exists a, b.
Qed.

(* ------------------------------------------------------------------ *)
(** ** When a view reports that there is nothing *)

Lemma filter_empty_iff {A} (f : A -> bool) (l : list A) :
  filter f l = [] <-> forall x, In x l -> f x = false.
Proof.
  split; [|apply filter_nothing].
  intros H x Hx. destruct (f x) eqn:E; [|reflexivity].
  assert (Hin : In x (filter f l)) by (apply filter_In; auto).
  rewrite H in Hin. destruct Hin.
Qed.

Lemma city_stats_query_empty_iff start_date end_date tbl :
  city_stats_query start_date end_date tbl = []
  <-> forall ev, In ev tbl -> city_where start_date end_date ev = false.
Proof.
  rewrite <- filter_empty_iff. split.
  - intros H. apply (f_equal (@List.length _)) in H.
    unfold city_stats_query in H.
    rewrite length_firstn, sort_by_length, length_map in H. simpl in H.
    destruct (group_by_grouped _ GEO_CITY option_string_eqb_eq
                (filter (city_where start_date end_date) tbl))
      as (_ & _ & Hall).
    destruct (group_by _ _ _) as [|g gs]; [|simpl in H; lia].
    destruct (filter _ tbl) as [|x l]; [reflexivity|].
    destruct (Hall x (or_introl eq_refl)).
  - intros H. unfold city_stats_query. now rewrite H.
Qed.

(** X20. On a connection that answers, with [Run] pressed, the General
    Statistics view writes that no data is available exactly when no
    event of the table has a user context and a timestamp between the
    midnights of the two dates. *)
Theorem no_data_iff engine w i :
  query_fault w = None ->
  Run i = true ->
  In (st.tab1, st.write "No data available for the selected date range.")
     (fst (general_statistics (Some engine) w i))
  <-> forall ev, In ev (EVENTS w) ->
        city_where (start_date i) (end_date i) ev = false.
Proof.
  intros Hw Hrun. rewrite <- city_stats_query_empty_iff.
  unfold general_statistics.
  rewrite Hrun, (load_data_total _ _ _ _ Hw), bind_call_returns.
  destruct (city_stats_query (start_date i) (end_date i) (EVENTS w))
    as [|r data]; cbn [empty negb].
  - split; [reflexivity|]. intros _. simpl. tauto.
  - split; [|discriminate]. simpl.
    intros H. repeat (destruct H as [H|H]; [discriminate|]). destruct H.
Qed.

Lemma no_data_iff_witness :
  query_fault Sample.warehouse = None
  /\ Run Sample.week_reversed = true
  /\ In (st.tab1, st.write "No data available for the selected date range.")
        (fst (general_statistics (Some Sample.engine) Sample.warehouse
                Sample.week_reversed)).
Proof.
  split; [reflexivity|]. split; [reflexivity|].
  apply (no_data_iff Sample.engine Sample.warehouse Sample.week_reversed);
    try reflexivity.
  intros ev Hev. apply city_where_reversed. reflexivity.
Defined.

(** X21. On a connection that answers, for an entered user id that holds
    neither a quote nor a backslash, the Events view shows the warning
    that no purchase data was found exactly when the table has no purchase
    event of that user. *)
Theorem not_found_iff engine w i :
  query_fault w = None ->
  Str.truthy (user_id i) = true ->
  sql_literal_safe (user_id i) = true ->
  In (st.tab2, st.warning "No purchase data found for this user ID.")
     (fst (events (Some engine) w i))
  <-> forall ev f p, ~ purchase_of (user_id i) (EVENTS w) ev f p.
Proof.
  intros Hw Hid Hsafe.
  assert (Hq : fetch_user_purchases (Some engine) w (user_id i)
               = Returns (user_purchase_query (user_id i) (EVENTS w))).
  { unfold fetch_user_purchases, read_sql. now rewrite Hw, Hsafe. }
  unfold events. rewrite Hid, Hq, bind_call_returns. unfold show_purchases.
  destruct (user_purchase_query (user_id i) (EVENTS w)) as [|r0 results] eqn:E;
    cbn [empty negb].
  - split; [|intros _; simpl; tauto].
    intros _ ev f p Hp.
    destruct (user_purchase_query_complete _ _ _ _ _ Hp) as (r & Hr & _).
    rewrite E in Hr. destruct Hr.
  - split.
    + intros H. exfalso.
      destruct (flatten (r0 :: results)) as [df|e|]; simpl in H;
        repeat (destruct H as [H|H]; [discriminate|]); destruct H.
    + intros Hnone. exfalso.
      destruct (user_purchase_query_sound (user_id i) (EVENTS w) r0)
        as (ev & f & p & Hp & _); [rewrite E; now left|].
      exact (Hnone ev f p Hp).
Qed.

Lemma not_found_iff_witness :
  query_fault Sample.warehouse = None
  /\ Str.truthy (user_id Sample.stranger) = true
  /\ sql_literal_safe (user_id Sample.stranger) = true
  /\ In (st.tab2, st.warning "No purchase data found for this user ID.")
        (fst (events (Some Sample.engine) Sample.warehouse Sample.stranger)).
Proof.
  repeat (split; [reflexivity|]).
  apply (not_found_iff Sample.engine Sample.warehouse Sample.stranger);
    try reflexivity.
  intros ev f p Hp.
  destruct (user_purchase_query_complete _ _ _ _ _ Hp) as (r & Hr & _).
  exact Hr.
Defined.

(* ------------------------------------------------------------------ *)
(** ** The user id in the text of the statement *)


